(** * A shallow embedding of [app.py], the blog comment server.

    The development follows the source file top to bottom:
    Python values and the few built-ins the handlers use, the comment
    store ([load_comments], [save_comments]), the time formatter
    ([format_time_ago]) and the three request handlers of
    [BlogCommentHandler] ([do_GET], [do_POST], [do_OPTIONS]).

    Library calls whose behaviour is fixed by CPython and not by this
    repository ([json.loads], [bytes.decode], [int], [datetime.isoformat],
    [datetime.fromisoformat], the allocation of a [bytes] buffer) are
    fields of the class [Runtime]; every theorem holds for every
    runtime.  One concrete runtime, [Sample.rt],
    is given at the end of the definitions and is used to run the
    handlers on concrete requests. *)

From Stdlib Require Import ZArith NArith List String Ascii Bool Lia.
From Stdlib Require Import Strings.Byte DecimalString.
Import ListNotations.

Local Open Scope Z_scope.
Set Warnings "-register-all".

(* ------------------------------------------------------------------ *)
(** ** Python strings *)

(** A Python [str] is a sequence of Unicode code points. *)
Definition pystr := list N.

(** The [str] written by an ASCII literal of the source. *)
Definition lit (s : string) : pystr :=
  map N_of_ascii (list_ascii_of_string s).

Fixpoint str_eqb (a b : pystr) : bool :=
  match a, b with
  | [], [] => true
  | x :: a', y :: b' => N.eqb x y && str_eqb a' b'
  | _, _ => false
  end.

(** The code points [str.strip()] removes (those with [str.isspace]). *)
Definition is_space (c : N) : bool :=
  (((9 <=? c) && (c <=? 13)) || ((28 <=? c) && (c <=? 32))
   || (c =? 133) || (c =? 160) || (c =? 5760)
   || ((8192 <=? c) && (c <=? 8202))
   || (c =? 8232) || (c =? 8233) || (c =? 8239) || (c =? 8287)
   || (c =? 12288))%N.

Fixpoint lstrip (s : pystr) : pystr :=
  match s with
  | c :: r => if is_space c then lstrip r else s
  | [] => []
  end.

Definition rstrip (s : pystr) : pystr := rev (lstrip (rev s)).

(** [s.strip()] *)
Definition strip (s : pystr) : pystr := rstrip (lstrip s).

(** [s[:n]] for a literal [n >= 0] *)
Definition slice_to (n : nat) (s : pystr) : pystr := firstn n s.

(** [str(n)] and [f"{n}"] for an [int]. *)
Definition str_of_Z (z : Z) : pystr :=
  lit (NilZero.string_of_int (Z.to_int z)).

(* ------------------------------------------------------------------ *)
(** ** Python values that travel through [json] *)

(** A Python [float] (IEEE 754 binary64): [FFinite neg m e] is the
    number [m * 2^e], negated when [neg]. *)
Inductive pyfloat :=
| FZero (neg : bool)
| FFinite (neg : bool) (m : positive) (e : Z)
| FInf (neg : bool)
| FNaN.

(** What [json.loads] returns and [json.dumps] accepts.  A [dict] keeps
    its keys in insertion order. *)
Inductive json :=
| JNull
| JBool (b : bool)
| JInt (z : Z)
| JFloat (f : pyfloat)
| JStr (s : pystr)
| JList (l : list json)
| JObj (d : list (pystr * json)).

Definition dict (V : Type) := list (pystr * V).

(** [d.get(k)] as an option, [k in d], [d[k] = v]. *)
Fixpoint dict_get {V} (k : pystr) (d : dict V) : option V :=
  match d with
  | [] => None
  | (k', v) :: r => if str_eqb k' k then Some v else dict_get k r
  end.

Definition dict_mem {V} (k : pystr) (d : dict V) : bool :=
  match dict_get k d with Some _ => true | None => false end.

Fixpoint dict_set {V} (k : pystr) (v : V) (d : dict V) : dict V :=
  match d with
  | [] => [(k, v)]
  | (k', v') :: r =>
      if str_eqb k' k then (k', v) :: r else (k', v') :: dict_set k v r
  end.

(** Truth value of an object, as [not x] and [if x] test it. *)
Definition truthy (v : json) : bool :=
  match v with
  | JNull => false
  | JBool b => b
  | JInt z => negb (z =? 0)
  | JFloat (FZero _) => false
  | JFloat _ => true
  | JStr s => match s with [] => false | _ => true end
  | JList l => match l with [] => false | _ => true end
  | JObj d => match d with [] => false | _ => true end
  end.

(** [type(v).__name__] *)
Definition type_name (v : json) : pystr :=
  match v with
  | JNull => lit "NoneType"
  | JBool _ => lit "bool"
  | JInt _ => lit "int"
  | JFloat _ => lit "float"
  | JStr _ => lit "str"
  | JList _ => lit "list"
  | JObj _ => lit "dict"
  end.

(* ------------------------------------------------------------------ *)
(** ** Exceptions *)

Inductive exn_class :=
| JSONDecodeError
| ValueError
| UnicodeDecodeError
| AttributeError
| TypeError
| KeyError
| IndexError
| OverflowError
| MemoryError
| OtherException (name : pystr)     (* any other subclass of Exception *)
| BaseOnly (name : pystr).          (* KeyboardInterrupt, SystemExit, ... *)

(** An exception object: its class and [str(e)]. *)
Record exn := Exn { exn_class_of : exn_class; exn_msg : pystr }.

(** [isinstance(e, json.JSONDecodeError)] *)
Definition is_JSONDecodeError (e : exn) : bool :=
  match exn_class_of e with JSONDecodeError => true | _ => false end.

(** [isinstance(e, Exception)] *)
Definition is_Exception (e : exn) : bool :=
  match exn_class_of e with BaseOnly _ => false | _ => true end.

(** The error raised by [v.name] when [v] has no such attribute. *)
Definition no_attribute (v : json) (name : string) : exn :=
  Exn AttributeError
      (lit "'" ++ type_name v ++ lit "' object has no attribute '"
           ++ lit name ++ lit "'").

(** Either an exception was raised or a value was produced. *)
Definition result (A : Type) := sum exn A.

Definition rbind {A B} (m : result A) (f : A -> result B) : result B :=
  match m with inl e => inl e | inr a => f a end.

(** [d.get(k, default)] on a dict. *)
Definition get_or {V} (k : string) (d : dict V) (default : V) : V :=
  match dict_get (lit k) d with Some v => v | None => default end.

(** [data.get(k, default)]: an [AttributeError] unless [data] is a dict. *)
Definition py_get (data : json) (k : string) (default : json) : result json :=
  match data with
  | JObj d => inr (get_or k d default)
  | _ => inl (no_attribute data "get")
  end.

(** [v.strip()]: an [AttributeError] unless [v] is a [str]. *)
Definition py_strip (v : json) : result pystr :=
  match v with
  | JStr s => inr (strip s)
  | _ => inl (no_attribute v "strip")
  end.

(* ------------------------------------------------------------------ *)
(** ** [datetime] *)

(** The wall-clock fields of a [datetime] object. *)
Record civil := Civil {
  year : Z; month : Z; day : Z;
  hour : Z; minute : Z; second : Z; microsecond : Z }.

(** A [datetime]: naive when [tzinfo] is [None], otherwise aware with
    the given UTC offset. *)
Record datetime := Datetime { wall : civil; tzinfo : option Z }.

Definition is_leap (y : Z) : bool :=
  (y mod 4 =? 0) && (negb (y mod 100 =? 0) || (y mod 400 =? 0)).

Definition days_before_year (y : Z) : Z :=
  let y1 := y - 1 in y1 * 365 + y1 / 4 - y1 / 100 + y1 / 400.

Definition days_before_month (y m : Z) : Z :=
  nth (Z.to_nat m) [0; 0; 31; 59; 90; 120; 151; 181; 212; 243; 273; 304; 334] 0
  + (if (m >? 2) && is_leap y then 1 else 0).

(** [date.toordinal()] *)
Definition toordinal (c : civil) : Z :=
  days_before_year (year c) + days_before_month (year c) (month c) + day c.

(** A [timedelta], held as its exact number of microseconds. *)
Definition timedelta := Z.

Definition civil_micros (c : civil) : Z :=
  ((toordinal c * 86400) + hour c * 3600 + minute c * 60 + second c) * 1000000
  + microsecond c.

(** [now - dt] for a naive [now]. *)
Definition datetime_sub (now : civil) (dt : datetime) : result timedelta :=
  match tzinfo dt with
  | None => inr (civil_micros now - civil_micros (wall dt))
  | Some _ =>
      inl (Exn TypeError
               (lit "can't subtract offset-naive and offset-aware datetimes"))
  end.

(* ------------------------------------------------------------------ *)
(** ** [float] arithmetic *)

(** The operations [format_time_ago] performs on floats.  Each result
    is rounded as binary64 rounds: to the nearest number with a mantissa
    of 53 bits (fewer below [2^-1022]), and to the one with the even
    mantissa when two are equally near.  No [timedelta] comes near the
    largest float, so overflow is left out. *)

(** The fraction [p / q * 2^(-e)], as numerator and denominator. *)
Definition scaled (p q e : Z) : Z * Z :=
  (p * 2 ^ Z.max 0 (- e), q * 2 ^ Z.max 0 e).

(** [floor (log2 (p / q))], for [0 < p] and [0 < q]. *)
Definition log2_ratio (p q : Z) : Z :=
  let l := Z.log2 p - Z.log2 q in
  let (a, b) := scaled p q l in
  if b <=? a then l else l - 1.

(** The integer nearest to [a / b], the even one of two equally near. *)
Definition nearest_even (a b : Z) : Z :=
  let f := a / b in
  let r := a mod b in
  if 2 * r <? b then f
  else if b <? 2 * r then f + 1
  else if Z.even f then f else f + 1.

(** The float nearest to [p / q], as mantissa and exponent. *)
Definition round64 (p q : Z) : Z * Z :=
  let e := Z.max (log2_ratio p q - 52) (-1074) in
  let (a, b) := scaled p q e in
  (nearest_even a b, e).

(** The float of sign [neg] nearest to [p / q], for [0 <= p], [0 < q]. *)
Definition float_of_ratio (neg : bool) (p q : Z) : pyfloat :=
  let (m, e) := round64 p q in
  match m with
  | Zpos m' => FFinite neg m' e
  | _ => FZero neg
  end.

Definition signed (neg : bool) (m : positive) : Z :=
  if neg then Zneg m else Zpos m.

(** [x < n] for a float [x] and an [int] [n]: the comparison is exact. *)
Definition float_lt_int (x : pyfloat) (n : Z) : bool :=
  match x with
  | FZero _ => 0 <? n
  | FFinite neg m e =>
      let (a, b) := scaled (signed neg m) 1 (- e) in a <? n * b
  | FInf neg => neg
  | FNaN => false
  end.

(** [x / k] for a float [x] and an [int] [0 < k < 2^53], which converts
    to a float as it is. *)
Definition float_div_int (x : pyfloat) (k : Z) : pyfloat :=
  match x with
  | FFinite neg m e =>
      let (a, b) := scaled (Zpos m) k (- e) in float_of_ratio neg a b
  | _ => x
  end.

(** [int(x)]: the fraction is dropped. *)
Definition int_of_float (x : pyfloat) : result Z :=
  match x with
  | FZero _ => inr 0
  | FFinite neg m e =>
      let (a, b) := scaled (signed neg m) 1 (- e) in inr (Z.quot a b)
  | FInf _ =>
      inl (Exn OverflowError (lit "cannot convert float infinity to integer"))
  | FNaN => inl (Exn ValueError (lit "cannot convert float NaN to integer"))
  end.

(** [delta.total_seconds()], the [int] division [us / 10**6]: the float
    nearest to the quotient. *)
Definition total_seconds (delta : timedelta) : pyfloat :=
  float_of_ratio (delta <? 0) (Z.abs delta) 1000000.

(* ------------------------------------------------------------------ *)
(** ** The runtime library *)

Class Runtime := {
  (** [json.loads(s)] *)
  json_loads : pystr -> result json;
  (** [b.decode('utf-8')] *)
  decode_utf8 : list byte -> result pystr;
  (** [int(s)] for a [str] *)
  int_of_str : pystr -> result Z;
  (** [d.isoformat()] *)
  isoformat : datetime -> pystr;
  (** [datetime.fromisoformat(s)] for a [str] *)
  fromisoformat : pystr -> result datetime;
  (** the allocation of the [bytes] object of [n > 0] bytes that
      [read(n)] fills: it succeeds, or raises [MemoryError] (for [n]
      near [sys.maxsize], [OverflowError]) *)
  bytes_alloc : Z -> result unit }.

(** What one request reads from outside the program: the successive
    readings of [datetime.now()] and the value of [str(uuid.uuid4())]. *)
Record env := Env { env_clock : nat -> civil; env_uuid4 : pystr }.

(* ------------------------------------------------------------------ *)
(** ** The comment store *)

(** A comment is a [dict]; the store maps a post id to the list of its
    comments.  [COMMENTS_FILE] is absent ([None]) or holds the document
    written by the last [save_comments]; as nothing else writes it, the
    document is an object whose members are arrays of objects, and
    [json.load] gives back the mapping [json.dump] was given. *)
Definition comment := dict json.
Definition store := dict (list comment).
Definition fs := option store.

(** Handler code runs over the file and may raise. *)
Definition M (A : Type) := fs -> result A * fs.

Definition ret {A} (a : A) : M A := fun f => (inr a, f).

Definition bind {A B} (m : M A) (k : A -> M B) : M B :=
  fun f => match m f with
           | (inr a, f') => k a f'
           | (inl e, f') => (inl e, f')
           end.

Definition lift {A} (r : result A) : M A := fun f => (r, f).

Declare Scope py_scope.
Delimit Scope py_scope with py.
Notation "x <- m ;; k" := (bind m (fun x => k))
  (at level 61, m at next level, right associativity) : py_scope.
Notation "m ;;; k" := (bind m (fun _ => k))
  (at level 61, right associativity) : py_scope.
Notation "x <~ r ;; k" := (rbind r (fun x => k))
  (at level 61, r at next level, right associativity) : py_scope.
Local Open Scope py_scope.

Definition load_comments : M store :=
  fun f => match f with
           | Some comments => (inr comments, f)
           | None => (inr [], f)
           end.

Definition save_comments (comments : store) : M unit :=
  fun _ => (inr tt, Some comments).

(* ------------------------------------------------------------------ *)
(** ** [format_time_ago] *)

(** ['s' if n > 1 else ''] *)
Definition plural_s (n : Z) : pystr := if n >? 1 then lit "s" else [].

Section Program.
Context {rt : Runtime}.

Definition format_time_ago (now : civil) (timestamp : json) : result pystr :=
  dt <~ match timestamp with
        | JStr s => fromisoformat s
        | _ => inl (Exn TypeError (lit "fromisoformat: argument must be str"))
        end ;;
  delta <~ datetime_sub now dt ;;
  let seconds := total_seconds delta in
  if float_lt_int seconds 60 then
    inr (lit "just now")
  else if float_lt_int seconds 3600 then
    mins <~ int_of_float (float_div_int seconds 60) ;;
    inr (str_of_Z mins ++ lit " minute" ++ plural_s mins ++ lit " ago")
  else if float_lt_int seconds 86400 then
    hours <~ int_of_float (float_div_int seconds 3600) ;;
    inr (str_of_Z hours ++ lit " hour" ++ plural_s hours ++ lit " ago")
  else if float_lt_int seconds 604800 then
    days <~ int_of_float (float_div_int seconds 86400) ;;
    inr (str_of_Z days ++ lit " day" ++ plural_s days ++ lit " ago")
  else
    weeks <~ int_of_float (float_div_int seconds 604800) ;;
    inr (str_of_Z weeks ++ lit " week" ++ plural_s weeks ++ lit " ago").

(* ------------------------------------------------------------------ *)
(** ** [BlogCommentHandler] *)

(** A request as the handlers see it: the path and the query are the
    results of [urlparse] and [parse_qs] on [self.path] ([parse_qs]
    drops blank values and never returns an empty list); [req_rfile]
    holds the bytes the client sends before it closes its side of the
    connection: a [read] that asks for more waits for that end. *)
Record request := Request {
  req_path : pystr;                    (* urlparse(self.path).path *)
  req_query : dict (list pystr);       (* parse_qs(urlparse(self.path).query) *)
  req_content_length : option pystr;   (* self.headers.get('Content-Length') *)
  req_rfile : list byte }.             (* the bytes self.rfile yields, to its end *)

(** What a handler writes to the client. *)
Inductive response :=
| SendJson (status : Z) (headers : list (pystr * pystr)) (body : json)
| SendError (code : Z) (message : pystr)
| SendEmpty (status : Z) (headers : list (pystr * pystr)).

(** How a handler call ends: it answered, it handed the request to
    [SimpleHTTPRequestHandler], or an exception left the handler. *)
Inductive outcome :=
| Responded (r : response)
| Delegated
| Propagated (e : exn).

Definition json_headers : list (pystr * pystr) :=
  [ (lit "Content-Type", lit "application/json");
    (lit "Access-Control-Allow-Origin", lit "*") ].

(** [comment['timestamp']] *)
Definition getitem (c : comment) (k : string) : result json :=
  match dict_get (lit k) c with
  | Some v => inr v
  | None => inl (Exn KeyError (lit "'" ++ lit k ++ lit "'"))
  end.

(** The loop of [do_GET]: the [i]-th call of [format_time_ago] reads the
    clock for the [i]-th time.  The dicts it updates are those of the
    mapping just loaded, not the file. *)
Fixpoint add_time_formatted (clock : nat -> civil) (i : nat)
    (cs : list comment) : result (list comment) :=
  match cs with
  | [] => inr []
  | c :: rest =>
      ts <~ getitem c "timestamp" ;;
      tf <~ format_time_ago (clock i) ts ;;
      rest' <~ add_time_formatted clock (S i) rest ;;
      inr (dict_set (lit "time_formatted") (JStr tf) c :: rest')
  end.

(** [query_params.get('post', [''])[0]] *)
Definition query_post (q : dict (list pystr)) : result pystr :=
  match dict_get (lit "post") q with
  | None => inr []
  | Some (v :: _) => inr v
  | Some [] => inl (Exn IndexError (lit "list index out of range"))
  end.

Definition is_api (req : request) : bool :=
  str_eqb (req_path req) (lit "/api/comments").

Definition get_body (e : env) (req : request) : M outcome :=
  if is_api req then
    post_id <- lift (query_post (req_query req)) ;;
    match post_id with
    | [] => ret Delegated
    | _ :: _ =>
        comments <- load_comments ;;
        let post_comments :=
          match dict_get post_id comments with Some l => l | None => [] end in
        annotated <- lift (add_time_formatted (env_clock e) 0 post_comments) ;;
        ret (Responded (SendJson 200 json_headers (JList (map JObj annotated))))
    end
  else ret Delegated.

(** No [try] surrounds the body of [do_GET]. *)
Definition do_GET (e : env) (req : request) (f : fs) : outcome * fs :=
  match get_body e req f with
  | (inr o, f') => (o, f')
  | (inl x, f') => (Propagated x, f')
  end.

(** [rfile.read(n)] on the buffered reader of the connection, for an
    [int] [n].  A size that is no [Py_ssize_t] (64 bits) is refused, then
    one below -1; -1 reads to the end; 0 gives the empty [bytes]; any
    other size first takes a buffer of [n] bytes, then reads until it is
    full or the stream ends. *)
Definition rfile_read (rfile : list byte) (n : Z) : result (list byte) :=
  if (n <? - 2 ^ 63) || (2 ^ 63 <=? n) then
    inl (Exn OverflowError (lit "cannot fit 'int' into an index-sized integer"))
  else if n <? -1 then
    inl (Exn ValueError (lit "read length must be non-negative or -1"))
  else if n =? -1 then inr rfile
  else if n =? 0 then inr []
  else _ <~ bytes_alloc n ;; inr (firstn (Z.to_nat n) rfile).

(** Lines 89-90: [int(self.headers.get('Content-Length', 0))] and
    [self.rfile.read(content_length).decode('utf-8')]. *)
Definition read_body (req : request) : result pystr :=
  content_length <~ match req_content_length req with
                    | Some s => int_of_str s
                    | None => inr 0
                    end ;;
  raw <~ rfile_read (req_rfile req) content_length ;;
  decode_utf8 raw.

(** [X.strip()[:n]] *)
Definition stripped (v : json) (n : nat) : result pystr :=
  s <~ py_strip v ;; inr (slice_to n s).

(** Lines 93-130, the body of the [try]. *)
Definition post_try (e : env) (body : pystr) : M response :=
  data <- lift (json_loads body) ;;
  author0 <- lift (py_get data "author" JNull) ;;
  missing <- (if negb (truthy author0) then ret true else
              text0 <- lift (py_get data "text" JNull) ;;
              if negb (truthy text0) then ret true else
              post_id0 <- lift (py_get data "post_id" JNull) ;;
              ret (negb (truthy post_id0))) ;;
  if (missing : bool) then
    ret (SendError 400 (lit "Missing required fields"))
  else
    let id := slice_to 8 (env_uuid4 e) in
    author <- lift (v <~ py_get data "author" (JStr []) ;; stripped v 100) ;;
    email <- lift (v <~ py_get data "email" (JStr []) ;; stripped v 100) ;;
    website <- lift (w <~ py_get data "website" JNull ;;
                     if truthy w then
                       v <~ py_get data "website" (JStr []) ;;
                       s <~ stripped v 200 ;; inr (JStr s)
                     else inr JNull) ;;
    text <- lift (v <~ py_get data "text" (JStr []) ;; stripped v 5000) ;;
    let timestamp := isoformat (Datetime (env_clock e 0) None) in
    post_id <- lift (v <~ py_get data "post_id" (JStr []) ;; stripped v 100) ;;
    parent_id <- lift (py_get data "parent_id" JNull) ;;
    let comment : comment :=
      [ (lit "id", JStr id);
        (lit "author", JStr author);
        (lit "email", JStr email);
        (lit "website", website);
        (lit "text", JStr text);
        (lit "timestamp", JStr timestamp);
        (lit "post_id", JStr post_id);
        (lit "parent_id", parent_id);
        (lit "approved", JBool true) ] in
    comments <- load_comments ;;
    let comments1 :=
      if negb (dict_mem post_id comments) then dict_set post_id [] comments
      else comments in
    let comments2 :=
      match dict_get post_id comments1 with
      | Some l => dict_set post_id (l ++ [comment]) comments1
      | None => comments1
      end in
    save_comments comments2 ;;;
    let comment' := dict_set (lit "time_formatted") (JStr (lit "just now")) comment in
    ret (SendJson 201 json_headers (JObj comment')).

(** [do_POST]: the body is read outside the [try]; inside it a
    [JSONDecodeError] becomes 400 and any other [Exception] becomes 500. *)
Definition do_POST (e : env) (req : request) (f : fs) : outcome * fs :=
  if is_api req then
    match read_body req with
    | inl x => (Propagated x, f)
    | inr body =>
        match post_try e body f with
        | (inr resp, f') => (Responded resp, f')
        | (inl x, f') =>
            if is_JSONDecodeError x then
              (Responded (SendError 400 (lit "Invalid JSON")), f')
            else if is_Exception x then
              (Responded (SendError 500 (exn_msg x)), f')
            else (Propagated x, f')
        end
    end
  else (Delegated, f).

Definition do_OPTIONS (f : fs) : outcome * fs :=
  (Responded (SendEmpty 200
     [ (lit "Access-Control-Allow-Origin", lit "*");
       (lit "Access-Control-Allow-Methods", lit "GET, POST, OPTIONS");
       (lit "Access-Control-Allow-Headers", lit "Content-Type") ]), f).

End Program.

(* ------------------------------------------------------------------ *)
(** ** A concrete runtime

    [Sample.rt] implements the five library calls on the inputs the
    sample requests of this file need: strict UTF-8 decoding, decimal
    [int] literals, JSON documents without fractional or exponent
    numbers, and the [isoformat] layout of naive datetimes.  Outside
    that fragment it reports an error where CPython may succeed, so it
    only serves to run the handlers; the theorems never depend on it. *)

Module Sample.

Definition hex_digit (n : N) : N :=
  (if n <? 10 then 48 + n else 87 + n)%N.

(** [repr(s)] for text without characters that need a [\u] escape. *)
Definition py_repr (s : pystr) : pystr :=
  let has c := existsb (N.eqb c) s in
  let q := (if has 39%N && negb (has 34%N) then 34 else 39)%N in
  let esc (c : N) : pystr :=
    (if (c =? 92) || (c =? q) then [92; c]
     else if c =? 10 then lit "\n"
     else if c =? 13 then lit "\r"
     else if c =? 9 then lit "\t"
     else if (c <? 32) || (c =? 127) then
       lit "\x" ++ [hex_digit (c / 16); hex_digit (c mod 16)]
     else [c])%N in
  [q] ++ flat_map esc s ++ [q].

(** *** [bytes.decode('utf-8')] *)

Definition decode_error (b : N) (pos len : nat) (reason : string) : exn :=
  Exn UnicodeDecodeError
      (lit "'utf-8' codec can't decode "
       ++ (match len with
           | 1%nat =>
               lit "byte 0x" ++ [hex_digit (b / 16); hex_digit (b mod 16)]
               ++ lit " in position " ++ str_of_Z (Z.of_nat pos)
           | _ =>
               lit "bytes in position " ++ str_of_Z (Z.of_nat pos) ++ lit "-"
               ++ str_of_Z (Z.of_nat (pos + len - 1))
           end)
       ++ lit ": " ++ lit reason).

Definition is_cont (b : N) : bool := ((128 <=? b) && (b <=? 191))%N.

(** The range allowed for the byte that follows lead byte [b]. *)
Definition second_ok (b c : N) : bool :=
  (if b =? 224 then (160 <=? c) && (c <=? 191)
   else if b =? 237 then (128 <=? c) && (c <=? 159)
   else if b =? 240 then (144 <=? c) && (c <=? 191)
   else if b =? 244 then (128 <=? c) && (c <=? 143)
   else is_cont c)%N.

Definition cons_ok (c : N) (r : result pystr) : result pystr :=
  match r with inr s => inr (c :: s) | inl e => inl e end.

Fixpoint decode_from (pos : nat) (bs : list N) : result pystr :=
  let eod len b := inl (decode_error b pos len "unexpected end of data") in
  let bad len b := inl (decode_error b pos len "invalid continuation byte") in
  match bs with
  | [] => inr []
  | b :: r =>
      if (b <? 128)%N then cons_ok b (decode_from (1 + pos) r)
      else if ((194 <=? b) && (b <=? 223))%N then
        match r with
        | [] => eod 1%nat b
        | c1 :: r1 =>
            if is_cont c1 then
              cons_ok ((b - 192) * 64 + (c1 - 128))%N (decode_from (2 + pos) r1)
            else bad 1%nat b
        end
      else if ((224 <=? b) && (b <=? 239))%N then
        match r with
        | [] => eod 1%nat b
        | c1 :: r1 =>
            if second_ok b c1 then
              match r1 with
              | [] => eod 2%nat b
              | c2 :: r2 =>
                  if is_cont c2 then
                    cons_ok ((b - 224) * 4096 + (c1 - 128) * 64 + (c2 - 128))%N
                            (decode_from (3 + pos) r2)
                  else bad 2%nat b
              end
            else bad 1%nat b
        end
      else if ((240 <=? b) && (b <=? 244))%N then
        match r with
        | [] => eod 1%nat b
        | c1 :: r1 =>
            if second_ok b c1 then
              match r1 with
              | [] => eod 2%nat b
              | c2 :: r2 =>
                  if is_cont c2 then
                    match r2 with
                    | [] => eod 3%nat b
                    | c3 :: r3 =>
                        if is_cont c3 then
                          cons_ok ((b - 240) * 262144 + (c1 - 128) * 4096
                                   + (c2 - 128) * 64 + (c3 - 128))%N
                                  (decode_from (4 + pos) r3)
                        else bad 3%nat b
                    end
                  else bad 2%nat b
              end
            else bad 1%nat b
        end
      else inl (decode_error b pos 1 "invalid start byte")
  end.

Definition decode (bs : list byte) : result pystr :=
  decode_from 0 (map Byte.to_N bs).

(** *** [int(s)] *)

Definition digit_val (c : N) : option Z :=
  if ((48 <=? c) && (c <=? 57))%N then Some (Z.of_N c - 48) else None.

(** Digits, with single underscores allowed between two digits. *)
Fixpoint digits (acc : Z) (after_digit : bool) (s : pystr) : option Z :=
  match s with
  | [] => if after_digit then Some acc else None
  | c :: r =>
      match digit_val c with
      | Some d => digits (acc * 10 + d) true r
      | None => if (c =? 95)%N && after_digit then digits acc false r else None
      end
  end.

Definition int_literal (s : pystr) : result Z :=
  let bad := inl (Exn ValueError
                      (lit "invalid literal for int() with base 10: "
                       ++ py_repr s)) in
  let body sign r :=
    match digits 0 false r with Some n => inr (sign * n) | None => bad end in
  match strip s with
  | 45%N :: r => body (-1) r
  | 43%N :: r => body 1 r
  | r => body 1 r
  end.

(** *** [json.loads(s)] *)

Definition is_json_ws (c : N) : bool :=
  ((c =? 32) || (c =? 9) || (c =? 10) || (c =? 13))%N.

Fixpoint skip_ws (s : pystr) : pystr :=
  match s with
  | c :: r => if is_json_ws c then skip_ws r else s
  | [] => []
  end.

Definition hex_val (c : N) : option N :=
  (if (48 <=? c) && (c <=? 57) then Some (c - 48)
   else if (97 <=? c) && (c <=? 102) then Some (c - 87)
   else if (65 <=? c) && (c <=? 70) then Some (c - 55)
   else None)%N.

Definition hex4 (a b c d : N) : option N :=
  match hex_val a, hex_val b, hex_val c, hex_val d with
  | Some x, Some y, Some z, Some w => Some (x * 4096 + y * 256 + z * 16 + w)%N
  | _, _, _, _ => None
  end.

(** The text after an opening quote, up to the closing one. *)
Fixpoint scan_string (s : pystr) : option (pystr * pystr) :=
  let push c t :=
    match t with Some (str, rest) => Some (c :: str, rest) | None => None end in
  match s with
  | [] => None
  | 34%N :: r => Some ([], r)
  | 92%N :: 117%N :: a :: b :: c :: d :: r =>
      match hex4 a b c d with
      | None => None
      | Some hi =>
          match r with
          | 92%N :: 117%N :: a' :: b' :: c' :: d' :: r' =>
              match hex4 a' b' c' d' with
              | Some lo =>
                  if ((55296 <=? hi) && (hi <=? 56319)
                      && (56320 <=? lo) && (lo <=? 57343))%N
                  then push (65536 + (hi - 55296) * 1024 + (lo - 56320))%N
                            (scan_string r')
                  else push hi (scan_string r)
              | None => push hi (scan_string r)
              end
          | _ => push hi (scan_string r)
          end
      end
  | 92%N :: e :: r =>
      let unescaped :=
        (if (e =? 34) || (e =? 92) || (e =? 47) then Some e
         else if e =? 98 then Some 8
         else if e =? 102 then Some 12
         else if e =? 110 then Some 10
         else if e =? 114 then Some 13
         else if e =? 116 then Some 9
         else None)%N in
      match unescaped with
      | Some c => push c (scan_string r)
      | None => None
      end
  | c :: r => if (c <? 32)%N then None else push c (scan_string r)
  end.

(** The digits of an integer literal: [0] alone or a non-zero digit
    followed by digits. *)
Fixpoint scan_digits (acc : Z) (s : pystr) : Z * pystr :=
  match s with
  | c :: r =>
      match digit_val c with
      | Some d => scan_digits (acc * 10 + d) r
      | None => (acc, s)
      end
  | [] => (acc, [])
  end.

Definition scan_int (s : pystr) : option (Z * pystr) :=
  match s with
  | 48%N :: r => Some (0, r)
  | c :: r =>
      match digit_val c with
      | Some d => Some (scan_digits d r)
      | None => None
      end
  | [] => None
  end.

(** A number; a fraction or an exponent is outside the fragment. *)
Definition scan_number (neg : bool) (s : pystr) : option (json * pystr) :=
  match scan_int s with
  | Some (n, rest) =>
      match rest with
      | 46%N :: _ | 101%N :: _ | 69%N :: _ => None
      | _ => Some (JInt (if neg then - n else n), rest)
      end
  | None => None
  end.

Fixpoint drop_prefix (p s : pystr) : option pystr :=
  match p, s with
  | [], _ => Some s
  | x :: p', y :: s' => if (x =? y)%N then drop_prefix p' s' else None
  | _ :: _, [] => None
  end.

Fixpoint scan_value (fuel : nat) (s : pystr) : option (json * pystr) :=
  match fuel with
  | O => None
  | S n =>
      let word (w : string) v k :=
        match drop_prefix (lit w) s with Some r => Some (v, r) | None => k end in
      match s with
      | 34%N :: r =>
          match scan_string r with
          | Some (str, rest) => Some (JStr str, rest)
          | None => None
          end
      | 91%N :: r =>
          match skip_ws r with
          | 93%N :: rest => Some (JList [], rest)
          | r0 =>
              match scan_items n r0 with
              | Some (l, rest) => Some (JList l, rest)
              | None => None
              end
          end
      | 123%N :: r =>
          match skip_ws r with
          | 125%N :: rest => Some (JObj [], rest)
          | r0 =>
              match scan_members n [] r0 with
              | Some (d, rest) => Some (JObj d, rest)
              | None => None
              end
          end
      | 45%N :: r =>
          word "-Infinity"%string (JFloat (FInf true)) (scan_number true r)
      | _ =>
          word "null"%string JNull
         (word "true"%string (JBool true)
         (word "false"%string (JBool false)
         (word "NaN"%string (JFloat FNaN)
         (word "Infinity"%string (JFloat (FInf false))
         (scan_number false s)))))
      end
  end

with scan_items (fuel : nat) (s : pystr) : option (list json * pystr) :=
  match fuel with
  | O => None
  | S n =>
      match scan_value n s with
      | Some (v, rest) =>
          match skip_ws rest with
          | 44%N :: r =>
              match scan_items n (skip_ws r) with
              | Some (l, rest') => Some (v :: l, rest')
              | None => None
              end
          | 93%N :: r => Some ([v], r)
          | _ => None
          end
      | None => None
      end
  end

with scan_members (fuel : nat) (acc : dict json) (s : pystr)
    : option (dict json * pystr) :=
  match fuel with
  | O => None
  | S n =>
      match s with
      | 34%N :: r =>
          match scan_string r with
          | Some (k, rest) =>
              match skip_ws rest with
              | 58%N :: r1 =>
                  match scan_value n (skip_ws r1) with
                  | Some (v, rest1) =>
                      let acc' := dict_set k v acc in
                      match skip_ws rest1 with
                      | 44%N :: r2 => scan_members n acc' (skip_ws r2)
                      | 125%N :: r2 => Some (acc', r2)
                      | _ => None
                      end
                  | None => None
                  end
              | _ => None
              end
          | None => None
          end
      | _ => None
      end
  end.

(** The message of a [JSONDecodeError] is never read by the program. *)
Definition loads (s : pystr) : result json :=
  match scan_value (S (List.length s)) (skip_ws s) with
  | Some (v, rest) =>
      match skip_ws rest with
      | [] => inr v
      | _ => inl (Exn JSONDecodeError (lit "Extra data"))
      end
  | None => inl (Exn JSONDecodeError (lit "Expecting value"))
  end.

(** *** [isoformat] and [fromisoformat] *)

Definition digit_chr (n : Z) : N := (48 + Z.to_N (n mod 10))%N.

Definition pad2 (n : Z) : pystr := [digit_chr (n / 10); digit_chr n].

Definition pad4 (n : Z) : pystr := pad2 (n / 100) ++ pad2 (n mod 100).

Definition pad6 (n : Z) : pystr := pad4 (n / 100) ++ pad2 (n mod 100).

(** [YYYY-MM-DDTHH:MM:SS], then [.ffffff] when the microsecond is not 0,
    then [+HH:MM] for an aware value whose offset is whole minutes. *)
Definition iso (d : datetime) : pystr :=
  let c := wall d in
  pad4 (year c) ++ lit "-" ++ pad2 (month c) ++ lit "-" ++ pad2 (day c)
  ++ lit "T" ++ pad2 (hour c) ++ lit ":" ++ pad2 (minute c) ++ lit ":"
  ++ pad2 (second c)
  ++ (if microsecond c =? 0 then [] else lit "." ++ pad6 (microsecond c))
  ++ match tzinfo d with
     | None => []
     | Some off =>
         (if off <? 0 then lit "-" else lit "+")
         ++ pad2 (Z.abs off / 3600) ++ lit ":" ++ pad2 (Z.abs off / 60 mod 60)
     end.

Fixpoint number (acc : Z) (s : pystr) : option Z :=
  match s with
  | [] => Some acc
  | c :: r =>
      match digit_val c with
      | Some d => number (acc * 10 + d) r
      | None => None
      end
  end.

Definition days_in_month (y m : Z) : Z :=
  if (m =? 2) && is_leap y then 29
  else nth (Z.to_nat m) [0; 31; 28; 31; 30; 31; 30; 31; 31; 30; 31; 30; 31] 0.

Definition civil_ok (c : civil) : bool :=
  (1 <=? year c) && (year c <=? 9999) && (1 <=? month c) && (month c <=? 12)
  && (1 <=? day c) && (day c <=? days_in_month (year c) (month c))
  && (0 <=? hour c) && (hour c <=? 23) && (0 <=? minute c) && (minute c <=? 59)
  && (0 <=? second c) && (second c <=? 59)
  && (0 <=? microsecond c) && (microsecond c <=? 999999).

(** Reads back the naive layouts [iso] writes. *)
Definition fromiso (s : pystr) : result datetime :=
  let bad := inl (Exn ValueError (lit "Invalid isoformat string: " ++ py_repr s)) in
  match s with
  | y1 :: y2 :: y3 :: y4 :: 45%N :: m1 :: m2 :: 45%N :: d1 :: d2 :: 84%N
    :: h1 :: h2 :: 58%N :: n1 :: n2 :: 58%N :: s1 :: s2 :: frac =>
      let us :=
        match frac with
        | [] => Some 0
        | [46%N; f1; f2; f3; f4; f5; f6] => number 0 [f1; f2; f3; f4; f5; f6]
        | _ => None
        end in
      match number 0 [y1; y2; y3; y4], number 0 [m1; m2], number 0 [d1; d2],
            number 0 [h1; h2], number 0 [n1; n2], number 0 [s1; s2], us with
      | Some y, Some m, Some d, Some h, Some n, Some sec, Some u =>
          let c := Civil y m d h n sec u in
          if civil_ok c then inr (Datetime c None) else bad
      | _, _, _, _, _, _, _ => bad
      end
  | _ => bad
  end.

(** A machine that has up to [2^32] bytes to give. *)
Definition alloc (n : Z) : result unit :=
  if n <=? 2 ^ 32 then inr tt
  else if 2 ^ 63 - 34 <? n then
    inl (Exn OverflowError (lit "byte string is too large"))
  else inl (Exn MemoryError []).

#[export] Instance rt : Runtime := {
  json_loads := loads;
  decode_utf8 := decode;
  int_of_str := int_literal;
  isoformat := iso;
  fromisoformat := fromiso;
  bytes_alloc := alloc }.

(** Sample text is written with ['] where the document has a double
    quote. *)
Definition text (s : string) : pystr :=
  map (fun c => if (c =? 39)%N then 34%N else c) (lit s).

Definition bytes (s : string) : list byte :=
  map (fun c => match Byte.of_N c with Some b => b | None => x00 end) (text s).

End Sample.

(* ------------------------------------------------------------------ *)
(** ** The server loop and the vocabulary of the statements *)

Section Vocabulary.
Context {rt : Runtime}.

(** One request dispatched by [HTTPServer] to the handler. *)
Inductive call :=
| GET (e : env) (req : request)
| POST (e : env) (req : request)
| OPTIONS.

Definition serve (f : fs) (c : call) : outcome * fs :=
  match c with
  | GET e req => do_GET e req f
  | POST e req => do_POST e req f
  | OPTIONS => do_OPTIONS f
  end.

(** The file after a sequence of requests. *)
Definition run (f : fs) (cs : list call) : fs :=
  fold_left (fun f c => snd (serve f c)) cs f.

(** The mapping a request finds: what [load_comments] returns. *)
Definition loaded (f : fs) : store :=
  match f with Some comments => comments | None => [] end.

(** The comments of post [k], empty when the post has none. *)
Definition comments_of (k : pystr) (s : store) : list comment :=
  match dict_get k s with Some l => l | None => [] end.

(** The store after [comment] was appended under [post_id]
    (lines 117-120). *)
Definition store_append (post_id : pystr) (c : comment) (s : store) : store :=
  let s1 := if negb (dict_mem post_id s) then dict_set post_id [] s else s in
  match dict_get post_id s1 with
  | Some l => dict_set post_id (l ++ [c]) s1
  | None => s1
  end.

(** [X.strip()[:n]] on a [str]. *)
Definition clean (n : nat) (s : pystr) : pystr := slice_to n (strip s).

(** A parsed body the handler accepts: [author], [text] and [post_id]
    are non-empty strings, [email] is a string when present, and
    [website] is falsy or a string; [web] is the stored website. *)
Definition valid_payload (d : dict json) (a em t p : pystr) (web : json) : Prop :=
  get_or "author" d JNull = JStr a /\ a <> [] /\
  get_or "text" d JNull = JStr t /\ t <> [] /\
  get_or "post_id" d JNull = JStr p /\ p <> [] /\
  get_or "email" d (JStr []) = JStr em /\
  ((truthy (get_or "website" d JNull) = false /\ web = JNull) \/
   (exists ws, get_or "website" d JNull = JStr ws /\ ws <> [] /\
               web = JStr (clean 200 ws))).

(** The comment lines 101-111 build from such a body. *)
Definition stored_comment (e : env) (d : dict json) (a em t p : pystr)
    (web : json) : comment :=
  [ (lit "id", JStr (slice_to 8 (env_uuid4 e)));
    (lit "author", JStr (clean 100 a));
    (lit "email", JStr (clean 100 em));
    (lit "website", web);
    (lit "text", JStr (clean 5000 t));
    (lit "timestamp", JStr (isoformat (Datetime (env_clock e 0) None)));
    (lit "post_id", JStr (clean 100 p));
    (lit "parent_id", get_or "parent_id" d JNull);
    (lit "approved", JBool true) ].

Definition nine_fields : list pystr :=
  [ lit "id"; lit "author"; lit "email"; lit "website"; lit "text";
    lit "timestamp"; lit "post_id"; lit "parent_id"; lit "approved" ].

(** Every persisted comment has exactly the nine fields. *)
Definition persisted_plain (f : fs) : Prop :=
  forall k l c, In (k, l) (loaded f) -> In c l -> map fst c = nine_fields.

(** Every comment is filed under its own [post_id]. *)
Definition keyed (s : store) : Prop :=
  forall k l c, dict_get k s = Some l -> In c l ->
                dict_get (lit "post_id") c = Some (JStr k).


(** [k] is absent from [d] or bound to a falsy value. *)
Definition falsy_field (d : dict json) (k : string) : Prop :=
  truthy (get_or k d JNull) = false.

(** The phrase of [format_time_ago] for a count [n] of [noun]s: the
    noun is singular exactly when [n = 1]. *)
Definition ago (n : Z) (noun : string) : pystr :=
  str_of_Z n ++ lit " " ++ lit noun ++ (if n =? 1 then [] else lit "s")
  ++ lit " ago".

(** [k] seconds, in microseconds. *)
Definition seconds (k : Z) : Z := k * 1000000.

(** [timedelta.max], in microseconds: no difference of two [datetime]s
    is longer. *)
Definition timedelta_max : Z :=
  (999999999 * 86400 + 86399) * 1000000 + 999999.

(** [x < n] and [n <= x] for a float [x] that is a number. *)
Definition below (x : pyfloat) (n : Z) : Prop := float_lt_int x n = true.
Definition at_least (x : pyfloat) (n : Z) : Prop := float_lt_int x n = false.

(** [floor (x / k)] for a finite float [x], with no rounding. *)
Definition whole (x : pyfloat) (k : Z) : Z :=
  match x with
  | FFinite neg m e => let (a, b) := scaled (signed neg m) k (- e) in a / b
  | _ => 0
  end.

(** The first and the last character of [s] are not whitespace. *)
Definition no_surrounding_space (s : pystr) : Prop :=
  match s with
  | [] => True
  | c :: _ => is_space c = false /\ is_space (last s c) = false
  end.

(** [core] is [s] trimmed of surrounding whitespace: [s] is [core]
    between two runs of whitespace, and [core] neither starts nor ends
    with whitespace. *)
Definition trimmed (s core : pystr) : Prop :=
  exists l r,
    s = l ++ core ++ r /\
    (forall c, In c l -> is_space c = true) /\
    (forall c, In c r -> is_space c = true) /\
    no_surrounding_space core.

(** The answer to an accepted POST: the comment with [time_formatted]
    attached. *)
Definition created_response (c : comment) : response :=
  SendJson 201 json_headers
    (JObj (c ++ [(lit "time_formatted", JStr (lit "just now"))])).

(** [c'] is [c] with a [time_formatted] string attached. *)
Definition annotated (c c' : comment) : Prop :=
  exists tf, c' = dict_set (lit "time_formatted") (JStr tf) c.

(** The request [GET /api/comments?post=P]. *)
Definition get_request (P : pystr) : request :=
  Request (lit "/api/comments") [(lit "post", [P])] None [].

End Vocabulary.

(* ------------------------------------------------------------------ *)
(** ** Sample requests, run on the concrete runtime *)

Module Samples.

Definition now : civil := Civil 2024 3 1 12 0 0 0.

Definition e0 : env :=
  Env (fun _ => now) (lit "123e4567-e89b-42d3-a456-426614174000").

(** [POST /api/comments] with the given body and its [Content-Length]. *)
Definition post (body : list byte) : request :=
  Request (lit "/api/comments") []
          (Some (str_of_Z (Z.of_nat (List.length body)))) body.

Definition body_ok : list byte :=
  Sample.bytes "{'author': ' Ann ', 'email': 'ann@example.org', 'website': '', 'text': 'Nice post', 'post_id': 'on-simplicity'}".

Definition body_empty_author : list byte :=
  Sample.bytes "{'author': '', 'text': 'hi', 'post_id': 'p'}".

Definition body_not_json : list byte := Sample.bytes "not-json".

Definition body_null_email : list byte :=
  Sample.bytes "{'author': 'Ann', 'email': null, 'text': 'hi', 'post_id': 'p'}".


Definition body_long_author : list byte :=
  Sample.bytes "{'author': '" ++ repeat x61 150
  ++ Sample.bytes "', 'text': 'hi', 'post_id': 'p'}".

(** A body that is not UTF-8. *)
Definition body_not_utf8 : list byte := [xff].

(** What [Sample.loads] makes of [body_ok], and the comment stored for
    it. *)
Definition data_ok : dict json :=
  [ (lit "author", JStr (lit " Ann "));
    (lit "email", JStr (lit "ann@example.org"));
    (lit "website", JStr []);
    (lit "text", JStr (lit "Nice post"));
    (lit "post_id", JStr (lit "on-simplicity")) ].

Definition comment_ok : comment :=
  [ (lit "id", JStr (lit "123e4567"));
    (lit "author", JStr (lit "Ann"));
    (lit "email", JStr (lit "ann@example.org"));
    (lit "website", JNull);
    (lit "text", JStr (lit "Nice post"));
    (lit "timestamp", JStr (lit "2024-03-01T12:00:00"));
    (lit "post_id", JStr (lit "on-simplicity"));
    (lit "parent_id", JNull);
    (lit "approved", JBool true) ].

Definition file_ok : fs := Some [(lit "on-simplicity", [comment_ok])].

(** The same for [body_long_author]. *)
Definition data_long : dict json :=
  [ (lit "author", JStr (repeat 97%N 150));
    (lit "text", JStr (lit "hi"));
    (lit "post_id", JStr (lit "p")) ].

Definition comment_long : comment :=
  [ (lit "id", JStr (lit "123e4567"));
    (lit "author", JStr (repeat 97%N 100));
    (lit "email", JStr []);
    (lit "website", JNull);
    (lit "text", JStr (lit "hi"));
    (lit "timestamp", JStr (lit "2024-03-01T12:00:00"));
    (lit "post_id", JStr (lit "p"));
    (lit "parent_id", JNull);
    (lit "approved", JBool true) ].

(** A body whose fields have whitespace around them, with an [author]
    of 120 letters between it; what [Sample.loads] makes of it, and the
    comment stored for it. *)
Definition body_padded : list byte :=
  Sample.bytes "{'author': '  " ++ repeat x62 120
  ++ Sample.bytes " ', 'website': ' https://example.org/ann ', 'text': '\tNice post\n', 'post_id': ' on-simplicity  '}".

Definition data_padded : dict json :=
  [ (lit "author", JStr (lit "  " ++ repeat 98%N 120 ++ lit " "));
    (lit "website", JStr (lit " https://example.org/ann "));
    (lit "text", JStr ([9%N] ++ lit "Nice post" ++ [10%N]));
    (lit "post_id", JStr (lit " on-simplicity  ")) ].

Definition comment_padded : comment :=
  [ (lit "id", JStr (lit "123e4567"));
    (lit "author", JStr (repeat 98%N 100));
    (lit "email", JStr []);
    (lit "website", JStr (lit "https://example.org/ann"));
    (lit "text", JStr (lit "Nice post"));
    (lit "timestamp", JStr (lit "2024-03-01T12:00:00"));
    (lit "post_id", JStr (lit "on-simplicity"));
    (lit "parent_id", JNull);
    (lit "approved", JBool true) ].


End Samples.

(* ------------------------------------------------------------------ *)
(** ** Vocabulary of the further statements *)

Section MoreVocabulary.
Context {rt : Runtime}.

(** The answer is the 201 of an accepted POST. *)
Definition is_created (o : outcome) : bool :=
  match o with
  | Responded (SendJson 201 _ _) => true
  | _ => false
  end.



(** [v] is a string of at most [n] characters. *)
Definition str_within (n : nat) (v : option json) : Prop :=
  exists s, v = Some (JStr s) /\ (List.length s <= n)%nat.

(** The field limits of lines 102-110. *)
Definition within_limits (c : comment) : Prop :=
  str_within 8 (dict_get (lit "id") c) /\
  str_within 100 (dict_get (lit "author") c) /\
  str_within 100 (dict_get (lit "email") c) /\
  (dict_get (lit "website") c = Some JNull \/
   str_within 200 (dict_get (lit "website") c)) /\
  str_within 5000 (dict_get (lit "text") c) /\
  str_within 100 (dict_get (lit "post_id") c) /\
  dict_get (lit "approved") c = Some (JBool true).

(** [c'] has the value of [c] at every key but [time_formatted], where
    it has a string. *)
Definition same_but_time (c c' : comment) : Prop :=
  (forall k, k <> lit "time_formatted" -> dict_get k c' = dict_get k c) /\
  exists tf, dict_get (lit "time_formatted") c' = Some (JStr tf).


(** [s] is empty or starts with a character that is not whitespace. *)
Definition starts_clean (s : pystr) : Prop :=
  match s with
  | [] => True
  | c :: _ => is_space c = false
  end.

End MoreVocabulary.

(* ------------------------------------------------------------------ *)
(** ** Further sample requests *)

Module MoreSamples.
Import Samples.


(** A body whose [author] is a number, and what [Sample.loads] makes of
    it. *)
Definition body_number_author : list byte :=
  Sample.bytes "{'author': 5, 'text': 'hi', 'post_id': 'p'}".

Definition data_number_author : dict json :=
  [ (lit "author", JInt 5);
    (lit "text", JStr (lit "hi"));
    (lit "post_id", JStr (lit "p")) ].

(** A file holding, for post [p], one comment without [timestamp]. *)
Definition comment_bare : comment := [ (lit "author", JStr (lit "Ann")) ].

Definition file_bare : fs := Some [(lit "p", [comment_bare])].

(** [comment_ok] as a GET returns it at [now]. *)
Definition comment_ok_shown : comment :=
  comment_ok ++ [(lit "time_formatted", JStr (lit "just now"))].

(** A request that announces 8 bytes and sends more. *)
Definition post_with_trailer : request :=
  Request (lit "/api/comments") [] (Some (lit "8"))
          (body_not_json ++ Sample.bytes "{'author': 'Ann'}").

(** A request whose [Content-Length] is not a number. *)
Definition post_bad_length : request :=
  Request (lit "/api/comments") [] (Some (lit "abc")) body_ok.

End MoreSamples.

(* ------------------------------------------------------------------ *)
(** ** Facts about strings and dicts *)

Lemma str_eqb_eq (a b : pystr) : str_eqb a b = true <-> a = b.
Proof.
  revert b; induction a as [|x a IH]; intros [|y b]; simpl;
    split; intros H; try discriminate; try reflexivity.
  - apply andb_prop in H as [Hx Hab].
    apply N.eqb_eq in Hx. apply IH in Hab. congruence.
  - injection H as -> ->. rewrite N.eqb_refl. simpl. now apply IH.
Qed.

Lemma str_eqb_refl (a : pystr) : str_eqb a a = true.
Proof. now apply str_eqb_eq. Qed.

Lemma str_eqb_neq (a b : pystr) : a <> b -> str_eqb a b = false.
Proof.
  intros H. destruct (str_eqb a b) eqn:E; [|reflexivity].
  apply str_eqb_eq in E. contradiction.
Qed.

Section DictFacts.
Context {V : Type}.
Implicit Types (d : dict V) (k : pystr) (v : V).

Lemma dict_get_set_same k v d : dict_get k (dict_set k v d) = Some v.
Proof.
  induction d as [|[k' v'] d IH]; simpl.
  - now rewrite str_eqb_refl.
  - destruct (str_eqb k' k) eqn:E; simpl; rewrite E; auto.
Qed.

Lemma dict_get_set_other k k' v d :
  k <> k' -> dict_get k' (dict_set k v d) = dict_get k' d.
Proof.
  intros Hne. induction d as [|[k0 v0] d IH]; simpl.
  - now rewrite str_eqb_neq.
  - destruct (str_eqb k0 k) eqn:E; simpl.
    + apply str_eqb_eq in E. subst k0. now rewrite str_eqb_neq.
    + destruct (str_eqb k0 k'); auto.
Qed.

Lemma dict_get_In k v d : dict_get k d = Some v -> In (k, v) d.
Proof.
  induction d as [|[k' v'] d IH]; simpl; [discriminate|].
  destruct (str_eqb k' k) eqn:E; intros H.
  - apply str_eqb_eq in E. injection H as ->. left. congruence.
  - right. auto.
Qed.

Lemma In_dict_set k v d k' v' :
  In (k', v') (dict_set k v d) -> In (k', v') d \/ (k' = k /\ v' = v).
Proof.
  induction d as [|[k0 v0] d IH]; simpl.
  - intros [H|[]]. injection H as <- <-. auto.
  - destruct (str_eqb k0 k) eqn:E; simpl; intros [H|H].
    + injection H as <- <-. apply str_eqb_eq in E. auto.
    + auto.
    + auto.
    + destruct (IH H) as [?|?]; auto.
Qed.

Lemma dict_mem_false k d : dict_mem k d = false -> dict_get k d = None.
Proof. unfold dict_mem. destruct (dict_get k d); [discriminate|auto]. Qed.

End DictFacts.

Lemma get_or_truthy (k : string) (d : dict json) (y : json) :
  truthy (get_or k d JNull) = true -> get_or k d y = get_or k d JNull.
Proof.
  unfold get_or. destruct (dict_get (lit k) d); [reflexivity|discriminate].
Qed.


Lemma truthy_str (s : pystr) : truthy (JStr s) = true <-> s <> [].
Proof. destruct s; simpl; split; congruence. Qed.

(** *** Appending to the store *)

Lemma store_append_same (P : pystr) (c : comment) (s : store) :
  dict_get P (store_append P c s) = Some (comments_of P s ++ [c]).
Proof.
  unfold store_append, comments_of, dict_mem.
  destruct (dict_get P s) as [l|] eqn:E; simpl.
  - rewrite E. apply dict_get_set_same.
  - rewrite dict_get_set_same. apply dict_get_set_same.
Qed.

Lemma store_append_other (P k : pystr) (c : comment) (s : store) :
  P <> k -> dict_get k (store_append P c s) = dict_get k s.
Proof.
  intros Hne. unfold store_append, dict_mem.
  destruct (dict_get P s) as [l|] eqn:E; simpl.
  - rewrite E. now apply dict_get_set_other.
  - rewrite dict_get_set_same.
    rewrite dict_get_set_other by assumption. now apply dict_get_set_other.
Qed.

Lemma In_store_append (P k : pystr) (c : comment) (l : list comment) (s : store) :
  In (k, l) (store_append P c s) ->
  In (k, l) s \/ l = [] \/ (k = P /\ l = comments_of P s ++ [c]).
Proof.
  unfold store_append, comments_of, dict_mem.
  destruct (dict_get P s) as [l0|] eqn:E; simpl.
  - rewrite E. intros H. apply In_dict_set in H as [H|[-> ->]]; auto.
  - rewrite dict_get_set_same. intros H.
    apply In_dict_set in H as [H|[-> ->]]; auto.
    apply In_dict_set in H as [H|[-> ->]]; auto.
Qed.

(* ------------------------------------------------------------------ *)
(** ** Facts about float arithmetic *)

Lemma pow2_pos (n : Z) : 0 < 2 ^ Z.max 0 n.
Proof. apply Z.pow_pos_nonneg; lia. Qed.

Lemma scaled_nonpos (p q e : Z) :
  e <= 0 -> scaled p q e = (p * 2 ^ (- e), q).
Proof.
  intros H. unfold scaled.
  replace (Z.max 0 (- e)) with (- e) by lia.
  replace (Z.max 0 e) with 0 by lia. now rewrite Z.mul_1_r.
Qed.

Lemma scaled_nonneg (p q e : Z) :
  0 <= e -> scaled p q e = (p, q * 2 ^ e).
Proof.
  intros H. unfold scaled.
  replace (Z.max 0 (- e)) with 0 by lia.
  replace (Z.max 0 e) with e by lia. now rewrite Z.mul_1_r.
Qed.

(** [log2_ratio] brackets the fraction between two powers of two. *)
Lemma log2_ratio_spec (p q : Z) :
  0 < p -> 0 < q ->
  let (a, b) := scaled p q (log2_ratio p q) in b <= a < 2 * b.
Proof.
  intros Hp Hq. unfold log2_ratio.
  destruct (Z.log2_spec p Hp) as [P1 P2].
  destruct (Z.log2_spec q Hq) as [Q1 Q2].
  rewrite Z.pow_succ_r in P2, Q2 by apply Z.log2_nonneg.
  pose proof (Z.log2_nonneg p) as Lp. pose proof (Z.log2_nonneg q) as Lq.
  set (lp := Z.log2 p) in *. set (lq := Z.log2 q) in *.
  destruct (Z.le_gt_cases 0 (lp - lq)) as [H|H].
  - rewrite (scaled_nonneg p q (lp - lq) H).
    assert (E : 2 ^ lp = 2 ^ lq * 2 ^ (lp - lq)).
    { rewrite <- Z.pow_add_r by lia. f_equal; lia. }
    assert (0 < 2 ^ (lp - lq)) by (apply Z.pow_pos_nonneg; lia).
    destruct (Z.leb_spec (q * 2 ^ (lp - lq)) p) as [C|C].
    + rewrite (scaled_nonneg p q (lp - lq) H). nia.
    + destruct (Z.eq_dec (lp - lq) 0) as [Z0|NZ].
      * rewrite Z0 in *. rewrite (scaled_nonpos p q (0 - 1)) by lia.
        change (2 ^ (- (0 - 1))) with 2. change (2 ^ 0) with 1 in *. nia.
      * rewrite (scaled_nonneg p q (lp - lq - 1)) by lia.
        assert (E2 : 2 ^ (lp - lq) = 2 * 2 ^ (lp - lq - 1)).
        { rewrite <- Z.pow_succ_r by lia. f_equal; lia. }
        nia.
  - rewrite (scaled_nonpos p q (lp - lq)) by lia.
    assert (E : 2 ^ lq = 2 ^ lp * 2 ^ (- (lp - lq))).
    { rewrite <- Z.pow_add_r by lia. f_equal; lia. }
    assert (0 < 2 ^ (- (lp - lq))) by (apply Z.pow_pos_nonneg; lia).
    destruct (Z.leb_spec q (p * 2 ^ (- (lp - lq)))) as [C|C].
    + rewrite (scaled_nonpos p q (lp - lq)) by lia. nia.
    + rewrite (scaled_nonpos p q (lp - lq - 1)) by lia.
      assert (E2 : 2 ^ (- (lp - lq - 1)) = 2 * 2 ^ (- (lp - lq))).
      { rewrite <- Z.pow_succ_r by lia. f_equal; lia. }
      nia.
Qed.

(** [p / q < 2^n] bounds [log2_ratio] from above. *)
Lemma log2_ratio_lt (p q n : Z) :
  0 < p -> 0 < q -> 0 <= n -> p < q * 2 ^ n -> log2_ratio p q < n.
Proof.
  intros Hp Hq Hn H. pose proof (log2_ratio_spec p q Hp Hq) as S.
  destruct (Z.lt_ge_cases (log2_ratio p q) n) as [|G]; [assumption|exfalso].
  rewrite scaled_nonneg in S by lia.
  assert (2 ^ n <= 2 ^ log2_ratio p q) by (apply Z.pow_le_mono_r; lia).
  nia.
Qed.

(** [2^(-n) <= p / q] bounds [log2_ratio] from below. *)
Lemma log2_ratio_ge (p q n : Z) :
  0 < p -> 0 < q -> 0 <= n -> q <= p * 2 ^ n -> - n <= log2_ratio p q.
Proof.
  intros Hp Hq Hn H. pose proof (log2_ratio_spec p q Hp Hq) as S.
  destruct (Z.le_gt_cases (- n) (log2_ratio p q)) as [|G]; [assumption|exfalso].
  rewrite scaled_nonpos in S by lia.
  assert (2 ^ (n + 1) <= 2 ^ (- log2_ratio p q)) by (apply Z.pow_le_mono_r; lia).
  rewrite Z.pow_add_r in H0 by lia. change (2 ^ 1) with 2 in H0.
  assert (0 < 2 ^ n) by (apply Z.pow_pos_nonneg; lia).
  nia.
Qed.

(** With 53 significant bits the scaled fraction lies in [[2^52, 2^53)]. *)
Lemma log2_ratio_52 (p q : Z) :
  0 < p -> 0 < q -> log2_ratio p q <= 52 ->
  q * 2 ^ 52 <= p * 2 ^ (52 - log2_ratio p q) < q * 2 ^ 53.
Proof.
  intros Hp Hq Hl. pose proof (log2_ratio_spec p q Hp Hq) as S.
  set (l := log2_ratio p q) in *.
  destruct (Z.le_gt_cases 0 l) as [H|H].
  - rewrite scaled_nonneg in S by lia.
    assert (E : 2 ^ 52 = 2 ^ l * 2 ^ (52 - l)).
    { rewrite <- Z.pow_add_r by lia. f_equal; lia. }
    assert (0 < 2 ^ (52 - l)) by (apply Z.pow_pos_nonneg; lia).
    change (2 ^ 53) with (2 * 2 ^ 52). rewrite E. nia.
  - rewrite scaled_nonpos in S by lia.
    assert (E : 2 ^ (52 - l) = 2 ^ 52 * 2 ^ (- l)).
    { rewrite <- Z.pow_add_r by lia. f_equal; lia. }
    change (2 ^ 53) with (2 * 2 ^ 52). rewrite E. nia.
Qed.

Lemma nearest_even_ge (a b z : Z) :
  0 < b -> z * b <= a -> z <= nearest_even a b.
Proof.
  intros Hb H. unfold nearest_even.
  assert (z <= a / b) by (apply Z.div_le_lower_bound; lia).
  repeat match goal with |- context [if ?c then _ else _] => destruct c end; lia.
Qed.

Lemma nearest_even_lt (a b z : Z) :
  0 < b -> 2 * a < (2 * z - 1) * b -> nearest_even a b < z.
Proof.
  intros Hb H. unfold nearest_even.
  pose proof (Z.div_mod a b ltac:(lia)) as E.
  pose proof (Z.mod_pos_bound a b Hb) as R.
  destruct (Z.ltb_spec (2 * (a mod b)) b).
  - nia.
  - assert (a / b + 1 < z) by nia.
    repeat match goal with |- context [if ?c then _ else _] => destruct c end; lia.
Qed.

Lemma nearest_even_le (a b z : Z) :
  0 < b -> a <= z * b -> nearest_even a b <= z.
Proof.
  intros Hb H. unfold nearest_even.
  pose proof (Z.div_mod a b ltac:(lia)) as E.
  pose proof (Z.mod_pos_bound a b Hb) as R.
  destruct (Z.ltb_spec (2 * (a mod b)) b).
  - nia.
  - assert (a / b + 1 <= z) by nia.
    repeat match goal with |- context [if ?c then _ else _] => destruct c end; lia.
Qed.

Lemma nearest_even_exact (b z : Z) :
  0 < b -> nearest_even (z * b) b = z.
Proof.
  intros Hb. unfold nearest_even.
  rewrite Z.mod_mul, Z.div_mul by lia.
  destruct (Z.ltb_spec (2 * 0) b); [reflexivity|lia].
Qed.

(** The rounding of a fraction in [[2^-n, 2^53)], [n <= 1022]: no
    underflow, and the mantissa has 53 bits. *)
Lemma float_of_ratio_normal (neg : bool) (p q n : Z) :
  0 < p -> 0 < q -> 0 <= n <= 1022 -> q <= p * 2 ^ n -> p < q * 2 ^ 53 ->
  exists m e,
    float_of_ratio neg p q = FFinite neg m e /\
    - n - 52 <= e <= 0 /\
    Zpos m = nearest_even (p * 2 ^ (- e)) q /\
    q * 2 ^ 52 <= p * 2 ^ (- e) < q * 2 ^ 53 /\
    2 ^ 52 <= Zpos m <= 2 ^ 53.
Proof.
  intros Hp Hq Hn Hlo Hhi.
  pose proof (log2_ratio_lt p q 53 Hp Hq ltac:(lia) Hhi) as L1.
  pose proof (log2_ratio_ge p q n Hp Hq ltac:(lia) Hlo) as L2.
  pose proof (log2_ratio_52 p q Hp Hq ltac:(lia)) as B.
  unfold float_of_ratio, round64.
  replace (Z.max (log2_ratio p q - 52) (-1074)) with (log2_ratio p q - 52) by lia.
  set (e := log2_ratio p q - 52) in *.
  rewrite scaled_nonpos by lia.
  replace (52 - log2_ratio p q) with (- e) in B by lia.
  assert (M1 : 2 ^ 52 <= nearest_even (p * 2 ^ (- e)) q)
    by (apply nearest_even_ge; lia).
  assert (M2 : nearest_even (p * 2 ^ (- e)) q <= 2 ^ 53)
    by (apply nearest_even_le; lia).
  destruct (nearest_even (p * 2 ^ (- e)) q) as [|m|m] eqn:E;
    try (exfalso; change (2 ^ 52) with 4503599627370496 in M1; lia).
  exists m, e. repeat split; try lia; reflexivity.
Qed.

(** [total_seconds] of a positive [timedelta]. *)
Lemma total_seconds_pos (us : Z) :
  0 < us < 2 ^ 53 * 1000000 ->
  exists m e,
    total_seconds us = FFinite false m e /\
    -72 <= e <= 0 /\ 2 ^ 52 <= Zpos m <= 2 ^ 53 /\
    (forall N, N * 1000000 <= us -> N * 2 ^ (- e) <= Zpos m) /\
    (forall N, N <= 2 ^ 34 -> us < N * 1000000 -> Zpos m < N * 2 ^ (- e)).
Proof.
  intros [H0 H1]. unfold total_seconds.
  destruct (Z.ltb_spec us 0); [lia|]. rewrite Z.abs_eq by lia.
  destruct (float_of_ratio_normal false us 1000000 20)
    as (m & e & E & He & Hm & Hb & Hm2); try lia.
  all: try (change (2 ^ 53) with 9007199254740992 in *; lia).
  all: try (change (2 ^ 20) with 1048576 in *; lia).
  exists m, e. split; [exact E|]. split; [lia|]. split; [exact Hm2|].
  assert (P : 0 < 2 ^ (- e)) by (apply Z.pow_pos_nonneg; lia).
  split.
  - intros N HN. rewrite Hm. apply nearest_even_ge; [lia|]. nia.
  - intros N HN Hlt. rewrite Hm.
    assert (He2 : e <= -19).
    { destruct (Z.le_gt_cases e (-19)) as [|G]; [assumption|exfalso].
      assert (2 ^ (- e) <= 2 ^ 18) by (apply Z.pow_le_mono_r; lia).
      change (2 ^ 18) with 262144 in *.
      change (2 ^ 34) with 17179869184 in *.
      change (2 ^ 52) with 4503599627370496 in *. nia. }
    assert (2 ^ 19 <= 2 ^ (- e)) by (apply Z.pow_le_mono_r; lia).
    change (2 ^ 19) with 524288 in *.
    apply nearest_even_lt; [lia|]. nia.
Qed.

(** A finite positive float below [k] or not. *)
Lemma float_lt_int_pos (m : positive) (e n : Z) :
  e <= 0 ->
  float_lt_int (FFinite false m e) n = (Zpos m <? n * 2 ^ (- e)).
Proof.
  intros He. unfold float_lt_int, signed.
  rewrite scaled_nonneg by lia. now rewrite Z.mul_1_l.
Qed.

Lemma whole_pos (m : positive) (e k : Z) :
  e <= 0 -> whole (FFinite false m e) k = Zpos m / (k * 2 ^ (- e)).
Proof.
  intros He. unfold whole, signed. now rewrite scaled_nonneg by lia.
Qed.

(** [int(x / k)] is [floor (x / k)] exactly, for a float [x >= k] with a
    53-bit mantissa and an exponent that is not positive. *)
Lemma trunc_div_exact (m : positive) (e k : Z) :
  2 ^ 52 <= Zpos m <= 2 ^ 53 -> e <= 0 -> 2 <= k ->
  k * 2 ^ (- e) <= Zpos m ->
  int_of_float (float_div_int (FFinite false m e) k)
    = inr (whole (FFinite false m e) k) /\
  1 <= whole (FFinite false m e) k.
Proof.
  intros Hm He Hk Hge. rewrite whole_pos by assumption.
  assert (PD : 0 < 2 ^ (- e)) by (apply Z.pow_pos_nonneg; lia).
  unfold float_div_int. rewrite scaled_nonneg by lia.
  remember (Zpos m) as p eqn:Ep in *.
  remember (k * 2 ^ (- e)) as q eqn:Eq in *.
  assert (Hq : 2 <= q).
  { subst q. transitivity (k * 1); [lia|].
    apply Z.mul_le_mono_nonneg_l; lia. }
  assert (N1 : 1 <= p / q) by (apply Z.div_le_lower_bound; lia).
  split; [|exact N1].
  change (2 ^ 52) with 4503599627370496 in Hm.
  change (2 ^ 53) with 9007199254740992 in Hm.
  destruct (float_of_ratio_normal false p q 0)
    as (m' & e' & E & He' & Hm' & Hb & _);
    [lia|lia|lia|change (2 ^ 0) with 1; lia
    |change (2 ^ 53) with 9007199254740992; lia|].
  rewrite E. unfold int_of_float, signed.
  rewrite scaled_nonneg by lia. rewrite Z.mul_1_l.
  assert (PE : 0 < 2 ^ (- e')) by (apply Z.pow_pos_nonneg; lia).
  assert (C : 2 ^ 53 = 2 ^ (52 + e') * (2 * 2 ^ (- e'))).
  { replace (2 * 2 ^ (- e')) with (2 ^ (1 - e'))
      by (replace (1 - e') with (Z.succ (- e')) by lia;
          now rewrite Z.pow_succ_r by lia).
    rewrite <- Z.pow_add_r by lia. f_equal; lia. }
  change (2 ^ 53) with 9007199254740992 in C.
  change (2 ^ 52) with 4503599627370496 in Hb.
  remember (2 ^ (- e')) as E' eqn:EE'. remember (2 ^ (52 + e')) as c eqn:Ec.
  clear EE' Ec Eq Ep Hge PD Hk He He' E.
  rewrite Z.quot_div_nonneg by lia. f_equal.
  pose proof (Z.div_mod p q ltac:(lia)) as DM.
  pose proof (Z.mod_pos_bound p q ltac:(lia)) as R.
  remember (p / q) as n eqn:En. remember (p mod q) as r eqn:Er.
  assert (Lo : n * E' <= Zpos m').
  { rewrite Hm'. apply nearest_even_ge; [lia|].
    assert (q * n * E' <= p * E')
      by (apply Z.mul_le_mono_nonneg_r; lia).
    lia. }
  assert (Hi : Zpos m' < (n + 1) * E').
  { rewrite Hm'. apply nearest_even_lt; [lia|].
    assert (T : p * E' <= 9007199254740992 * E')
      by (apply Z.mul_le_mono_nonneg_r; lia).
    assert (Q2 : q <= 2 * E') by lia.
    assert (K : q < 2 * E' * (q - r)).
    { destruct (Z.eq_dec q (2 * E')) as [EQ|NE].
      - assert (9007199254740992 <= p)
          by (apply (Z.mul_le_mono_pos_r _ _ E'); lia).
        assert (P53 : p = 9007199254740992) by lia.
        assert (Hr : r = 0).
        { rewrite Er, P53, C, <- EQ. apply Z.mod_mul. lia. }
        rewrite Hr, Z.sub_0_r, <- EQ.
        assert (q * 1 < q * q) by (apply Z.mul_lt_mono_pos_l; lia). lia.
      - assert (2 * E' * 1 <= 2 * E' * (q - r))
          by (apply Z.mul_le_mono_nonneg_l; lia).
        lia. }
    rewrite DM. lia. }
  symmetry. apply Z.div_unique with (r := Zpos m' - n * E'); lia.
Qed.

(** Below [2^34] seconds the truncated quotient of the float is that of
    the exact number of microseconds. *)
Lemma whole_total_seconds (us k : Z) :
  0 < k -> k * 1000000 <= us < 2 ^ 34 * 1000000 ->
  whole (total_seconds us) k = us / (k * 1000000).
Proof.
  intros Hk [Hlo Hhi].
  destruct (total_seconds_pos us) as (m & e & E & He & Hm & Ge & Lt).
  { change (2 ^ 34) with 17179869184 in *.
    change (2 ^ 53) with 9007199254740992. lia. }
  rewrite E, whole_pos by lia.
  assert (PD : 0 < 2 ^ (- e)) by (apply Z.pow_pos_nonneg; lia).
  remember (2 ^ (- e)) as D eqn:ED. clear ED E He Hm.
  pose proof (Z.div_mod us (k * 1000000) ltac:(lia)) as DM.
  pose proof (Z.mod_pos_bound us (k * 1000000) ltac:(lia)) as R.
  remember (us / (k * 1000000)) as n eqn:En.
  remember (us mod (k * 1000000)) as r eqn:Er.
  assert (Lo : n * k * D <= Zpos m) by (apply Ge; lia).
  assert (Hi : Zpos m < (n + 1) * k * D).
  { destruct (Z.le_gt_cases ((n + 1) * k) (2 ^ 34)) as [S|L].
    - apply Lt; [exact S|lia].
    - assert (Zpos m < 2 ^ 34 * D) by (apply Lt; lia).
      assert (2 ^ 34 * D <= (n + 1) * k * D)
        by (apply Z.mul_le_mono_nonneg_r; lia).
      lia. }
  symmetry. apply Z.div_unique with (r := Zpos m - n * k * D); lia.
Qed.

(** [int] never fails on what [format_time_ago] gives it. *)
Lemma int_of_float_ratio (neg : bool) (p q : Z) :
  exists z, int_of_float (float_of_ratio neg p q) = inr z.
Proof.
  unfold float_of_ratio. destruct (round64 p q) as [m e].
  destruct m; cbn [int_of_float]; eexists; reflexivity.
Qed.

Lemma int_of_float_div (us k : Z) :
  exists z, int_of_float (float_div_int (total_seconds us) k) = inr z.
Proof.
  unfold total_seconds, float_of_ratio at 1.
  destruct (round64 (Z.abs us) 1000000) as [m e].
  destruct m; cbn [float_div_int int_of_float]; try (eexists; reflexivity).
  destruct (scaled (Z.pos p) k (- e)). apply int_of_float_ratio.
Qed.

(** A float below [a] is below every [b >= a]. *)
Lemma float_lt_int_mono (x : pyfloat) (a b : Z) :
  float_lt_int x a = true -> a <= b -> float_lt_int x b = true.
Proof.
  destruct x as [neg|neg m e|neg|]; cbn [float_lt_int]; try easy.
  - intros H Hab. apply Z.ltb_lt in H. apply Z.ltb_lt. lia.
  - unfold scaled. intros H Hab. apply Z.ltb_lt in H. apply Z.ltb_lt.
    pose proof (pow2_pos (- e)) as P.
    assert (a * (1 * 2 ^ Z.max 0 (- e)) <= b * (1 * 2 ^ Z.max 0 (- e)))
      by (apply Z.mul_le_mono_nonneg_r; lia).
    lia.
Qed.

(** A [timedelta] that is not positive lasts less than any [n > 0]. *)
Lemma total_seconds_nonpos (us n : Z) :
  us <= 0 -> 0 < n -> float_lt_int (total_seconds us) n = true.
Proof.
  intros Hus Hn. unfold total_seconds, float_of_ratio.
  destruct (round64 (Z.abs us) 1000000) as [m e] eqn:R.
  destruct (Z.ltb_spec us 0) as [Neg|Zero].
  - destruct m; cbn [float_lt_int]; try (apply Z.ltb_lt; lia).
    unfold scaled, signed. apply Z.ltb_lt.
    pose proof (pow2_pos (- - e)) as P1. pose proof (pow2_pos (- e)) as P2.
    assert (Z.neg p * 2 ^ Z.max 0 (- - e) < 0)
      by (apply Z.mul_neg_pos; lia).
    assert (0 <= n * (1 * 2 ^ Z.max 0 (- e)))
      by (apply Z.mul_nonneg_nonneg; lia).
    lia.
  - assert (us = 0) by lia. subst us. vm_compute in R.
    injection R as <- <-. cbn [float_lt_int]. apply Z.ltb_lt. lia.
Qed.

(** One bucket of [format_time_ago]: the count is the exact quotient of
    the float, and at least 1. *)
Lemma bucket_count (us k : Z) :
  us <= timedelta_max -> 2 <= k ->
  at_least (total_seconds us) k ->
  int_of_float (float_div_int (total_seconds us) k)
    = inr (whole (total_seconds us) k) /\
  1 <= whole (total_seconds us) k.
Proof.
  intros Hmax Hk Hge. unfold at_least in Hge.
  destruct (Z.le_gt_cases us 0) as [Neg|Pos].
  { rewrite (total_seconds_nonpos us k Neg) in Hge by lia. discriminate. }
  destruct (total_seconds_pos us) as (m & e & E & He & Hm & _ & _).
  { unfold timedelta_max in Hmax. change (2 ^ 53) with 9007199254740992. lia. }
  rewrite E in *. rewrite float_lt_int_pos in Hge by lia.
  apply Z.ltb_ge in Hge. apply trunc_div_exact; try assumption; lia.
Qed.

(** The float [seconds] and the exact elapsed time fall on the same
    side of every whole number of seconds up to [2^34]. *)
Lemma total_seconds_below (us n : Z) :
  0 < n <= 2 ^ 34 -> us < n * 1000000 -> below (total_seconds us) n.
Proof.
  intros Hn Hlt. unfold below.
  destruct (Z.le_gt_cases us 0) as [Neg|Pos].
  { apply total_seconds_nonpos; lia. }
  destruct (total_seconds_pos us) as (m & e & E & He & _ & _ & Lt).
  { change (2 ^ 34) with 17179869184 in Hn.
    change (2 ^ 53) with 9007199254740992. lia. }
  rewrite E, float_lt_int_pos by lia. apply Z.ltb_lt. apply Lt; lia.
Qed.

Lemma total_seconds_at_least (us n : Z) :
  0 < n -> n * 1000000 <= us <= timedelta_max -> at_least (total_seconds us) n.
Proof.
  intros Hn [Hlo Hhi]. unfold at_least.
  destruct (total_seconds_pos us) as (m & e & E & He & _ & Ge & _).
  { unfold timedelta_max in Hhi. change (2 ^ 53) with 9007199254740992. lia. }
  rewrite E, float_lt_int_pos by lia. apply Z.ltb_ge. apply Ge; lia.
Qed.

(* ------------------------------------------------------------------ *)
(** ** Facts about the handlers *)

Section HandlerFacts.
Context {rt : Runtime}.



Lemma post_try_inv e body f r f' :
  post_try e body f = (r, f') ->
  (f' = f /\ ((exists x, r = inl x) \/
              r = inr (SendError 400 (lit "Missing required fields")))) \/
  (exists d a em t p web,
      json_loads body = inr (JObj d) /\ valid_payload d a em t p web /\
      r = inr (created_response (stored_comment e d a em t p web)) /\
      f' = Some (store_append (clean 100 p)
                   (stored_comment e d a em t p web) (loaded f))).
Proof.
  intros H.
  destruct (json_loads body) as [x|data] eqn:Hl.
  { left. unfold post_try, bind, lift in H. rewrite Hl in H.
    injection H as <- <-. eauto. }
  assert (Hfail : forall x, post_try e body f = (inl x, f) ->
            (f' = f /\ ((exists x, r = inl x) \/
                r = inr (SendError 400 (lit "Missing required fields"))))).
  { intros x Hx. rewrite Hx in H. injection H as <- <-. eauto. }
  destruct data as [| | | | |l|d];
    try (left; eapply Hfail; unfold post_try, bind, lift; rewrite Hl; reflexivity).
  clear Hfail.
  unfold post_try, bind, lift, ret in H. rewrite Hl in H.
  cbn [py_get rbind] in H.
  destruct (truthy (get_or "author" d JNull)) eqn:Ta; cbn [negb] in H;
    [|left; injection H as <- <-; auto].
  destruct (truthy (get_or "text" d JNull)) eqn:Tt; cbn [negb] in H;
    [|left; injection H as <- <-; auto].
  destruct (truthy (get_or "post_id" d JNull)) eqn:Tp; cbn [negb] in H;
    [|left; injection H as <- <-; auto].
  rewrite (get_or_truthy _ _ _ Ta), (get_or_truthy _ _ _ Tt),
    (get_or_truthy _ _ _ Tp) in H.
  destruct (get_or "author" d JNull) as [| | | |a| |] eqn:Ha;
    try (left; injection H as <- <-; eauto; fail).
  destruct (get_or "email" d (JStr [])) as [| | | |em| |] eqn:Hem;
    try (left; injection H as <- <-; eauto; fail).
  cbn [stripped py_strip rbind] in H.
  assert (Hweb : (exists web,
    (if truthy (get_or "website" d JNull)
     then rbind (stripped (get_or "website" d (JStr [])) 200) (fun s => inr (JStr s))
     else inr JNull) = inr web /\
    ((truthy (get_or "website" d JNull) = false /\ web = JNull) \/
     (exists ws, get_or "website" d JNull = JStr ws /\ ws <> [] /\
                 web = JStr (clean 200 ws)))) \/
    exists x, (if truthy (get_or "website" d JNull)
     then rbind (stripped (get_or "website" d (JStr [])) 200) (fun s => inr (JStr s))
     else inr JNull) = inl x).
  { destruct (truthy (get_or "website" d JNull)) eqn:Tw.
    - rewrite (get_or_truthy _ _ _ Tw).
      destruct (get_or "website" d JNull) as [| | | |ws| |];
        try (right; eexists; reflexivity).
      left. eexists. split; [reflexivity|]. right. exists ws.
      repeat split. now apply truthy_str.
    - left. exists JNull. auto. }
  destruct Hweb as [(web & Hweb & Hw)|(x & Hweb)]; rewrite Hweb in H;
    [|left; injection H as <- <-; eauto].
  destruct (get_or "text" d JNull) as [| | | |t| |] eqn:Ht;
    try (left; injection H as <- <-; eauto; fail).
  destruct (get_or "post_id" d JNull) as [| | | |p| |] eqn:Hp;
    try (left; injection H as <- <-; eauto; fail).
  cbn [stripped py_strip rbind] in H.
  assert (E : r = inr (created_response (stored_comment e d a em t p web)) /\
              f' = Some (store_append (clean 100 p)
                           (stored_comment e d a em t p web) (loaded f))).
  { destruct f; injection H as <- <-; split; reflexivity. }
  destruct E as [-> ->].
  right. exists d, a, em, t, p, web.
  repeat split; try assumption; now apply truthy_str.
Qed.

Lemma do_POST_inv e req f o f' :
  do_POST e req f = (o, f') ->
  (f' = f /\ forall st h b, o = Responded (SendJson st h b) -> False) \/
  (exists body d a em t p web,
      is_api req = true /\ read_body req = inr body /\
      json_loads body = inr (JObj d) /\ valid_payload d a em t p web /\
      o = Responded (created_response (stored_comment e d a em t p web)) /\
      f' = Some (store_append (clean 100 p)
                   (stored_comment e d a em t p web) (loaded f))).
Proof.
  unfold do_POST. intros H.
  destruct (is_api req) eqn:Hapi; [|left; injection H as <- <-; split; [auto|discriminate]].
  destruct (read_body req) as [x|body] eqn:Hb;
    [left; injection H as <- <-; split; [auto|discriminate]|].
  destruct (post_try e body f) as [r f1] eqn:Ht.
  apply post_try_inv in Ht as [[-> Hr]|(d & a & em & t & p & web & Hl & Hv & -> & ->)].
  - left. destruct Hr as [[x ->]| ->].
    + destruct (is_JSONDecodeError x); [|destruct (is_Exception x)];
        injection H as <- <-; split; auto; discriminate.
    + injection H as <- <-; split; auto; discriminate.
  - right. injection H as <- <-. exists body, d, a, em, t, p, web. auto 10.
Qed.



Lemma format_time_ago_total now ts dt :
  fromisoformat ts = inr dt -> tzinfo dt = None ->
  exists s, format_time_ago now (JStr ts) = inr s.
Proof.
  intros Hp Hn. unfold format_time_ago. rewrite Hp. cbn [rbind].
  unfold datetime_sub. rewrite Hn. cbn [rbind]. cbv zeta.
  repeat match goal with |- context [if ?b then _ else _] => destruct b end;
    try (eexists; reflexivity);
    match goal with
    | |- context [int_of_float (float_div_int (total_seconds ?u) ?k)] =>
        destruct (int_of_float_div u k) as [z ->]
    end; cbn [rbind]; eexists; reflexivity.
Qed.



Lemma do_GET_keeps_file e req f : snd (do_GET e req f) = f.
Proof.
  unfold do_GET, get_body, bind, lift, ret, load_comments.
  destruct (is_api req); [|reflexivity].
  destruct (query_post (req_query req)) as [x|[|c P]]; try reflexivity.
  destruct f; cbv beta iota;
    match goal with |- context [add_time_formatted ?a ?b ?c] =>
      destruct (add_time_formatted a b c) end; reflexivity.
Qed.



End HandlerFacts.

(* ------------------------------------------------------------------ *)
(** ** The time formatter *)

Section TimeFormatter.
Context {rt : Runtime}.

Lemma phrase_ago (n : Z) (noun : string) :
  1 <= n ->
  str_of_Z n ++ lit (String " " noun) ++ plural_s n ++ lit " ago" = ago n noun.
Proof.
  intros Hn. unfold ago, plural_s.
  assert (E : (n >? 1) = negb (n =? 1)).
  { destruct (Z.eqb_spec n 1); destruct (Z.gtb_spec n 1); simpl; auto; lia. }
  rewrite E. destruct (n =? 1); reflexivity.
Qed.

Lemma at_least_mono (x : pyfloat) (a b : Z) :
  at_least x b -> a <= b -> at_least x a.
Proof.
  unfold at_least. intros Hb Hab.
  destruct (float_lt_int x a) eqn:E; [|reflexivity].
  now rewrite (float_lt_int_mono x a b E Hab) in Hb.
Qed.

(** C2: let [s] be the float that [total_seconds()] returns for the
    elapsed time.  [format_time_ago] answers "just now" when [s < 60],
    and otherwise counts whole minutes, hours, days or weeks, the count
    being [floor (s / 60)], [floor (s / 3600)], [floor (s / 86400)] or
    [floor (s / 604800)] exactly, in the buckets [60, 3600),
    [3600, 86400), [86400, 604800) and [604800, ...), with the noun
    singular exactly when the count is 1.  For an elapsed time of [us]
    microseconds below [2^34] seconds the same buckets and counts are
    read off [us] itself.  59 s gives "just now", 60 s and 90 s give
    "1 minute ago", 3599 s gives "59 minutes ago" and 7200 s gives
    "2 hours ago". *)
Theorem format_time_ago_buckets (now : civil) (ts : pystr) (dt : datetime) (us : Z) :
  fromisoformat ts = inr dt -> datetime_sub now dt = inr us ->
  us <= timedelta_max ->
  let shown := format_time_ago now (JStr ts) in
  let s := total_seconds us in
  (below s 60 -> shown = inr (lit "just now")) /\
  (at_least s 60 -> below s 3600 ->
     shown = inr (ago (whole s 60) "minute")) /\
  (at_least s 3600 -> below s 86400 ->
     shown = inr (ago (whole s 3600) "hour")) /\
  (at_least s 86400 -> below s 604800 ->
     shown = inr (ago (whole s 86400) "day")) /\
  (at_least s 604800 -> shown = inr (ago (whole s 604800) "week")) /\
  (us < seconds 60 -> shown = inr (lit "just now")) /\
  (seconds 60 <= us < seconds 3600 ->
     shown = inr (ago (us / seconds 60) "minute")) /\
  (seconds 3600 <= us < seconds 86400 ->
     shown = inr (ago (us / seconds 3600) "hour")) /\
  (seconds 86400 <= us < seconds 604800 ->
     shown = inr (ago (us / seconds 86400) "day")) /\
  (seconds 604800 <= us < seconds (2 ^ 34) ->
     shown = inr (ago (us / seconds 604800) "week")) /\
  (us = seconds 59 -> shown = inr (lit "just now")) /\
  (us = seconds 60 -> shown = inr (lit "1 minute ago")) /\
  (us = seconds 3599 -> shown = inr (lit "59 minutes ago")) /\
  (us = seconds 90 -> shown = inr (lit "1 minute ago")) /\
  (us = seconds 7200 -> shown = inr (lit "2 hours ago")).
Proof.
  intros Hp Hs Hmax shown s.
  assert (Run : shown =
    (if float_lt_int s 60 then inr (lit "just now")
     else if float_lt_int s 3600 then
       mins <~ int_of_float (float_div_int s 60) ;;
       inr (str_of_Z mins ++ lit " minute" ++ plural_s mins ++ lit " ago")
     else if float_lt_int s 86400 then
       hours <~ int_of_float (float_div_int s 3600) ;;
       inr (str_of_Z hours ++ lit " hour" ++ plural_s hours ++ lit " ago")
     else if float_lt_int s 604800 then
       days <~ int_of_float (float_div_int s 86400) ;;
       inr (str_of_Z days ++ lit " day" ++ plural_s days ++ lit " ago")
     else
       weeks <~ int_of_float (float_div_int s 604800) ;;
       inr (str_of_Z weeks ++ lit " week" ++ plural_s weeks ++ lit " ago"))).
  { unfold shown, format_time_ago. rewrite Hp. cbn [rbind].
    rewrite Hs. reflexivity. }
  assert (S1 : below s 60 -> shown = inr (lit "just now")).
  { unfold below. intros H. now rewrite Run, H. }
  assert (S2 : at_least s 60 -> below s 3600 ->
               shown = inr (ago (whole s 60) "minute")).
  { intros Lo Hi. rewrite Run. unfold below, at_least in *. rewrite Lo, Hi.
    destruct (bucket_count us 60 Hmax ltac:(lia) Lo) as [E Hn].
    fold s in E, Hn. rewrite E. cbn [rbind]. now rewrite <- phrase_ago. }
  assert (S3 : at_least s 3600 -> below s 86400 ->
               shown = inr (ago (whole s 3600) "hour")).
  { intros Lo Hi. rewrite Run.
    pose proof (at_least_mono s 60 3600 Lo ltac:(lia)) as L1.
    unfold below, at_least in *. rewrite L1, Lo, Hi.
    destruct (bucket_count us 3600 Hmax ltac:(lia) Lo) as [E Hn].
    fold s in E, Hn. rewrite E. cbn [rbind]. now rewrite <- phrase_ago. }
  assert (S4 : at_least s 86400 -> below s 604800 ->
               shown = inr (ago (whole s 86400) "day")).
  { intros Lo Hi. rewrite Run.
    pose proof (at_least_mono s 60 86400 Lo ltac:(lia)) as L1.
    pose proof (at_least_mono s 3600 86400 Lo ltac:(lia)) as L2.
    unfold below, at_least in *. rewrite L1, L2, Lo, Hi.
    destruct (bucket_count us 86400 Hmax ltac:(lia) Lo) as [E Hn].
    fold s in E, Hn. rewrite E. cbn [rbind]. now rewrite <- phrase_ago. }
  assert (S5 : at_least s 604800 ->
               shown = inr (ago (whole s 604800) "week")).
  { intros Lo. rewrite Run.
    pose proof (at_least_mono s 60 604800 Lo ltac:(lia)) as L1.
    pose proof (at_least_mono s 3600 604800 Lo ltac:(lia)) as L2.
    pose proof (at_least_mono s 86400 604800 Lo ltac:(lia)) as L3.
    unfold below, at_least in *. rewrite L1, L2, L3, Lo.
    destruct (bucket_count us 604800 Hmax ltac:(lia) Lo) as [E Hn].
    fold s in E, Hn. rewrite E. cbn [rbind]. now rewrite <- phrase_ago. }
  assert (P34 : 2 ^ 34 = 17179869184) by reflexivity.
  assert (U1 : us < seconds 60 -> shown = inr (lit "just now")).
  { unfold seconds. intros H. apply S1, total_seconds_below; lia. }
  assert (U : forall k k', 0 < k -> k < k' <= 2 ^ 34 ->
              seconds k <= us < seconds k' ->
              at_least s k /\ below s k' /\ whole s k = us / seconds k).
  { unfold seconds. intros k k' Hk Hk' [Lo Hi]. split; [|split].
    - apply total_seconds_at_least; lia.
    - apply total_seconds_below; lia.
    - apply whole_total_seconds; [lia|]. rewrite P34 in *. nia. }
  assert (U2 : seconds 60 <= us < seconds 3600 ->
               shown = inr (ago (us / seconds 60) "minute")).
  { intros H. destruct (U 60 3600) as (A & B & <-); try lia; auto. }
  assert (U3 : seconds 3600 <= us < seconds 86400 ->
               shown = inr (ago (us / seconds 3600) "hour")).
  { intros H. destruct (U 3600 86400) as (A & B & <-); try lia; auto. }
  assert (U4 : seconds 86400 <= us < seconds 604800 ->
               shown = inr (ago (us / seconds 86400) "day")).
  { intros H. destruct (U 86400 604800) as (A & B & <-); try lia; auto. }
  assert (U5 : seconds 604800 <= us < seconds (2 ^ 34) ->
               shown = inr (ago (us / seconds 604800) "week")).
  { intros H. destruct (U 604800 (2 ^ 34)) as (A & B & <-); try lia; auto. }
  repeat split; try assumption.
  - intros E. apply U1. rewrite E. reflexivity.
  - intros E. rewrite U2 by (rewrite E; split; discriminate || reflexivity).
    rewrite E. reflexivity.
  - intros E. rewrite U2 by (rewrite E; split; discriminate || reflexivity).
    rewrite E. reflexivity.
  - intros E. rewrite U2 by (rewrite E; split; discriminate || reflexivity).
    rewrite E. reflexivity.
  - intros E. rewrite U3 by (rewrite E; split; discriminate || reflexivity).
    rewrite E. reflexivity.
Qed.

End TimeFormatter.

(* ------------------------------------------------------------------ *)
(** ** Error answers of [do_POST] *)

Section PostErrors.
Context {rt : Runtime}.

(** The three tests of line 96 on a parsed object. *)
Lemma post_try_missing e body f d :
  json_loads body = inr (JObj d) ->
  falsy_field d "author" \/ falsy_field d "text" \/ falsy_field d "post_id" ->
  post_try e body f = (inr (SendError 400 (lit "Missing required fields")), f).
Proof.
  unfold falsy_field. intros Hl H.
  unfold post_try, bind, lift, ret. rewrite Hl. cbn [py_get rbind].
  destruct (truthy (get_or "author" d JNull)); cbn [negb]; [|reflexivity].
  destruct (truthy (get_or "text" d JNull)); cbn [negb]; [|reflexivity].
  destruct (truthy (get_or "post_id" d JNull)); cbn [negb]; [|reflexivity].
  destruct H as [H|[H|H]]; discriminate.
Qed.

(** C4: when the body parses as a JSON object in which [author], [text]
    or [post_id] is absent, empty or otherwise falsy, the answer is
    400 "Missing required fields" and the store is left as it was; an
    [author] equal to the empty string is such a case. *)
Theorem post_missing_required_fields (e : env) (req : request) (f : fs)
    (body : pystr) (d : dict json) :
  is_api req = true -> read_body req = inr body ->
  json_loads body = inr (JObj d) ->
  (falsy_field d "author" \/ falsy_field d "text" \/ falsy_field d "post_id" ->
   do_POST e req f =
     (Responded (SendError 400 (lit "Missing required fields")), f)) /\
  (dict_get (lit "author") d = Some (JStr []) ->
   do_POST e req f =
     (Responded (SendError 400 (lit "Missing required fields")), f)).
Proof.
  intros Hapi Hb Hl.
  assert (G : falsy_field d "author" \/ falsy_field d "text"
              \/ falsy_field d "post_id" ->
              do_POST e req f =
              (Responded (SendError 400 (lit "Missing required fields")), f)).
  { intros H. unfold do_POST. rewrite Hapi, Hb.
    now rewrite (post_try_missing e body f d Hl H). }
  split; [exact G|].
  intros Ha. apply G. left. unfold falsy_field, get_or. now rewrite Ha.
Qed.


(** C9: a JSON object with truthy [author], [text] and [post_id] whose
    [email] is present and null is answered with 500, never 201, and
    nothing is stored; when [author] is a string the message is the
    one of calling [strip] on [None]. *)
Theorem post_null_email (e : env) (req : request) (f : fs)
    (body : pystr) (d : dict json) :
  is_api req = true -> read_body req = inr body ->
  json_loads body = inr (JObj d) ->
  truthy (get_or "author" d JNull) = true ->
  truthy (get_or "text" d JNull) = true ->
  truthy (get_or "post_id" d JNull) = true ->
  dict_get (lit "email") d = Some JNull ->
  exists msg,
    do_POST e req f = (Responded (SendError 500 msg), f) /\
    (forall a, get_or "author" d JNull = JStr a ->
               msg = lit "'NoneType' object has no attribute 'strip'").
Proof.
  intros Hapi Hb Hl Ta Tt Tp Hem.
  assert (Em : forall y, get_or "email" d y = JNull).
  { intros y. unfold get_or. now rewrite Hem. }
  unfold do_POST. rewrite Hapi, Hb.
  unfold post_try, bind, lift, ret. rewrite Hl. cbn [py_get rbind].
  rewrite Ta, Tt, Tp. cbn [negb].
  rewrite (get_or_truthy _ _ _ Ta), Em.
  destruct (get_or "author" d JNull) as [| | | |a| |];
    cbn [stripped py_strip rbind];
    (eexists; split; [reflexivity|]); intros a0 Ha0; try discriminate Ha0.
  reflexivity.
Qed.

(** C1, as the handler implements it: once the body has been read and
    decoded, an exception raised inside the [try] (parsing, validating,
    building, appending, persisting, answering) that derives from
    [Exception] and is not a [JSONDecodeError] is answered with 500 and
    the exception's message; a body that parses to something other
    than an object is such a case. *)
Theorem post_exception_500 (e : env) (req : request) (f : fs) (body : pystr) :
  is_api req = true -> read_body req = inr body ->
  (forall x f',
      post_try e body f = (inl x, f') ->
      is_JSONDecodeError x = false -> is_Exception x = true ->
      do_POST e req f = (Responded (SendError 500 (exn_msg x)), f')) /\
  (forall data,
      json_loads body = inr data -> (forall d, data <> JObj d) ->
      do_POST e req f =
        (Responded (SendError 500 (exn_msg (no_attribute data "get"))), f)).
Proof.
  intros Hapi Hb. split.
  - intros x f' Ht Hj Hx. unfold do_POST. now rewrite Hapi, Hb, Ht, Hj, Hx.
  - intros data Hl Hd. unfold do_POST. rewrite Hapi, Hb.
    unfold post_try, bind, lift. rewrite Hl.
    destruct data; try reflexivity. now destruct (Hd d).
Qed.

End PostErrors.

(* ------------------------------------------------------------------ *)
(** ** Stored comments *)

Lemma lstrip_head (c : N) (s : pystr) :
  is_space c = false -> lstrip (c :: s) = c :: s.
Proof. intros H. simpl. now rewrite H. Qed.

Lemma rev_last (d : N) (l : pystr) :
  l <> [] -> rev l = last l d :: rev (removelast l).
Proof.
  intros H. rewrite (app_removelast_last d H) at 1.
  now rewrite rev_app_distr.
Qed.

Lemma strip_no_surrounding_space (s : pystr) :
  no_surrounding_space s -> strip s = s.
Proof.
  destruct s as [|c s]; [reflexivity|].
  intros [Hc Hl]. unfold strip, rstrip. rewrite (lstrip_head c s Hc).
  assert (E : lstrip (rev (c :: s)) = rev (c :: s)).
  { rewrite (rev_last c (c :: s)) by discriminate. now apply lstrip_head. }
  rewrite E. apply rev_involutive.
Qed.

(** [lstrip] takes a run of whitespace off the front, and what is left
    does not start with whitespace. *)
Lemma lstrip_split (s : pystr) :
  exists l,
    s = l ++ lstrip s /\
    (forall c, In c l -> is_space c = true) /\
    match lstrip s with [] => True | c :: _ => is_space c = false end.
Proof.
  induction s as [|c s (l & E & Hl & Hc)].
  - exists []. repeat split. intros c [].
  - simpl. destruct (is_space c) eqn:Ec.
    + exists (c :: l). simpl. split; [now rewrite <- E|]. split; [|exact Hc].
      intros c0 [<-|H]; auto.
    + exists []. split; [reflexivity|]. split; [intros c0 []|exact Ec].
Qed.

(** [strip] trims: what it drops on either side is whitespace, and what
    it keeps neither starts nor ends with whitespace. *)
Lemma strip_trimmed (s : pystr) : trimmed s (strip s).
Proof.
  destruct (lstrip_split s) as (l & E1 & Hl & Hc).
  destruct (lstrip_split (rev (lstrip s))) as (r & E2 & Hr & Hc2).
  unfold strip, rstrip.
  remember (lstrip (rev (lstrip s))) as u eqn:Eu.
  assert (E3 : lstrip s = rev u ++ rev r).
  { rewrite <- rev_app_distr, <- E2. now rewrite rev_involutive. }
  exists l, (rev r). split; [now rewrite <- E3|].
  split; [exact Hl|].
  split; [intros c Hin; apply Hr; now apply in_rev|].
  rewrite E3 in Hc. clear E1 E2 E3 Eu Hl Hr.
  destruct u as [|x u]; [exact I|]. simpl in Hc |- *.
  destruct (rev u ++ [x]) as [|c t] eqn:E; [exact I|].
  split; [exact Hc|]. rewrite <- E. rewrite last_last. exact Hc2.
Qed.

Lemma lstrip_app_space (l x : pystr) :
  (forall c, In c l -> is_space c = true) -> lstrip (l ++ x) = lstrip x.
Proof.
  induction l as [|c l IH]; intros H; [reflexivity|].
  simpl. rewrite (H c (or_introl eq_refl)). apply IH.
  intros c0 Hc0. apply H. now right.
Qed.

(** Trimming has one result, the one [strip] computes. *)
Lemma trimmed_unique (s core : pystr) : trimmed s core -> core = strip s.
Proof.
  intros (l & r & -> & Hl & Hr & Hc). unfold strip.
  rewrite (lstrip_app_space l _ Hl).
  destruct core as [|c t].
  - simpl. rewrite <- (app_nil_r r), (lstrip_app_space r [] Hr). reflexivity.
  - destruct Hc as [Hc Hlast]. simpl app. rewrite (lstrip_head c _ Hc).
    unfold rstrip. change (c :: t ++ r) with ((c :: t) ++ r).
    rewrite rev_app_distr, lstrip_app_space
      by (intros c0 Hc0; apply Hr; now apply in_rev).
    rewrite (rev_last c (c :: t)) by discriminate.
    rewrite (lstrip_head _ _ Hlast).
    rewrite <- (rev_last c (c :: t)) by discriminate.
    now rewrite rev_involutive.
Qed.

Section StoreClaims.
Context {rt : Runtime}.

Lemma stored_comment_fields e d a em t p web :
  map fst (stored_comment e d a em t p web) = nine_fields.
Proof. reflexivity. Qed.

Lemma nine_fields_plain (c : comment) :
  map fst c = nine_fields -> dict_get (lit "time_formatted") c = None.
Proof.
  intros H.
  destruct c as [|[k1 v1] [|[k2 v2] [|[k3 v3] [|[k4 v4] [|[k5 v5] [|[k6 v6]
    [|[k7 v7] [|[k8 v8] [|[k9 v9] [|? ?]]]]]]]]]]; try discriminate H.
  injection H as -> -> -> -> -> -> -> -> ->. reflexivity.
Qed.

Lemma do_POST_keeps_plain e req f :
  persisted_plain f -> persisted_plain (snd (do_POST e req f)).
Proof.
  intros Hf. destruct (do_POST e req f) as [o f'] eqn:E. cbn [snd].
  apply do_POST_inv in E
    as [[-> _]|(body & d & a & em & t & p & web & _ & _ & _ & _ & _ & ->)];
    [assumption|].
  intros k l c Hin Hc. cbn [loaded] in Hin.
  apply In_store_append in Hin as [Hin|[->|[-> ->]]].
  - eapply Hf; eassumption.
  - destruct Hc.
  - apply in_app_or in Hc as [Hc|[<-|[]]].
    + unfold comments_of in Hc.
      destruct (dict_get (clean 100 p) (loaded f)) as [l|] eqn:G; [|destruct Hc].
      apply dict_get_In in G. eapply Hf; eassumption.
    + apply stored_comment_fields.
Qed.

Lemma serve_keeps_plain f c :
  persisted_plain f -> persisted_plain (snd (serve f c)).
Proof.
  destruct c as [e req|e req|]; cbn [serve].
  - now rewrite do_GET_keeps_file.
  - apply do_POST_keeps_plain.
  - auto.
Qed.

Lemma run_keeps_plain cs : forall f,
  persisted_plain f -> persisted_plain (run f cs).
Proof.
  unfold run. induction cs as [|c cs IH]; intros f Hf; cbn [fold_left].
  - assumption.
  - apply IH. now apply serve_keeps_plain.
Qed.

(** C10: whatever requests were served since the file was absent, every
    persisted comment has exactly the nine fields [id], [author],
    [email], [website], [text], [timestamp], [post_id], [parent_id],
    [approved], hence no [time_formatted]; GET leaves the file as it is
    and the property is kept by every sequence of requests. *)
Theorem persisted_store_has_no_time_formatted :
  (forall e req f, snd (do_GET e req f) = f) /\
  (forall f cs, persisted_plain f -> persisted_plain (run f cs)) /\
  (forall cs k l c,
      In (k, l) (loaded (run None cs)) -> In c l ->
      map fst c = nine_fields /\ dict_get (lit "time_formatted") c = None).
Proof.
  split; [exact do_GET_keeps_file|].
  split; [intros f cs; apply run_keeps_plain|].
  intros cs k l c Hin Hc.
  assert (H : map fst c = nine_fields).
  { eapply (run_keeps_plain cs None); [|eassumption..].
    intros ? ? ? []. }
  split; [assumption|now apply nine_fields_plain].
Qed.

(** C8: if every stored comment is filed under its own [post_id], then
    after a POST answered with 201 this still holds; the new comment is
    appended to the list of the key equal to its own stored [post_id]
    and no other entry of the mapping is changed. *)
Theorem post_keeps_comments_keyed (e : env) (req : request) (f f' : fs)
    (h : list (pystr * pystr)) (b : json) :
  keyed (loaded f) ->
  do_POST e req f = (Responded (SendJson 201 h b), f') ->
  exists P c,
    b = JObj (c ++ [(lit "time_formatted", JStr (lit "just now"))]) /\
    dict_get (lit "post_id") c = Some (JStr P) /\
    dict_get P (loaded f') = Some (comments_of P (loaded f) ++ [c]) /\
    (forall k, k <> P -> dict_get k (loaded f') = dict_get k (loaded f)) /\
    keyed (loaded f').
Proof.
  intros Hk E.
  apply do_POST_inv in E
    as [[_ Hno]|(body & d & a & em & t & p & web & _ & _ & _ & _ & Ho & ->)].
  { exfalso. eapply Hno. reflexivity. }
  injection Ho as -> ->.
  exists (clean 100 p), (stored_comment e d a em t p web). cbn [loaded].
  split; [reflexivity|]. split; [reflexivity|].
  split; [apply store_append_same|].
  split; [intros k Hne; apply store_append_other; congruence|].
  intros k l c Hg Hc.
  destruct (str_eqb (clean 100 p) k) eqn:Ek.
  - apply str_eqb_eq in Ek. subst k. rewrite store_append_same in Hg.
    injection Hg as <-. apply in_app_or in Hc as [Hc|[<-|[]]].
    + unfold comments_of in Hc.
      destruct (dict_get (clean 100 p) (loaded f)) as [l|] eqn:G; [|destruct Hc].
      eapply Hk; eassumption.
    + reflexivity.
  - assert (Hne : clean 100 p <> k).
    { intros Heq. apply str_eqb_eq in Heq. congruence. }
    rewrite store_append_other in Hg by assumption.
    eapply Hk; eassumption.
Qed.





(** C6: in every POST answered with 201, [author], [text] and [post_id]
    were submitted as strings, and what is stored for each is the
    submitted string trimmed of surrounding whitespace and then cut to
    its first 100, 5000 and 100 characters; a submitted non-empty
    [website] string is stored trimmed and cut to 200 characters (a
    falsy one as null); the comment is filed under the stored
    [post_id]; so an [author] of 150 characters without surrounding
    whitespace is stored as exactly its first 100 characters. *)
Theorem post_stores_trimmed_truncated (e : env) (req : request) (f f' : fs)
    (h : list (pystr * pystr)) (b : json) (body : pystr) (d : dict json) :
  do_POST e req f = (Responded (SendJson 201 h b), f') ->
  read_body req = inr body -> json_loads body = inr (JObj d) ->
  exists a t p c sa st sp,
    get_or "author" d JNull = JStr a /\
    get_or "text" d JNull = JStr t /\
    get_or "post_id" d JNull = JStr p /\
    trimmed a sa /\ trimmed t st /\ trimmed p sp /\
    dict_get (firstn 100 sp) (loaded f') =
      Some (comments_of (firstn 100 sp) (loaded f) ++ [c]) /\
    dict_get (lit "author") c = Some (JStr (firstn 100 sa)) /\
    dict_get (lit "text") c = Some (JStr (firstn 5000 st)) /\
    dict_get (lit "post_id") c = Some (JStr (firstn 100 sp)) /\
    (forall ws, get_or "website" d JNull = JStr ws -> ws <> [] ->
       exists sw, trimmed ws sw /\
         dict_get (lit "website") c = Some (JStr (firstn 200 sw))) /\
    (truthy (get_or "website" d JNull) = false ->
       dict_get (lit "website") c = Some JNull) /\
    (List.length a = 150%nat -> no_surrounding_space a ->
       dict_get (lit "author") c = Some (JStr (firstn 100 a)) /\
       List.length (firstn 100 a) = 100%nat).
Proof.
  intros E Hb Hl.
  apply do_POST_inv in E
    as [[_ Hno]|(body' & d' & a & em & t & p & web & _ & Hb' & Hl' & Hv & _ & ->)].
  { exfalso. eapply Hno. reflexivity. }
  rewrite Hb in Hb'. injection Hb' as <-.
  rewrite Hl in Hl'. injection Hl' as <-.
  destruct Hv as (Ha & _ & Ht & _ & Hp & _ & _ & Hw).
  exists a, t, p, (stored_comment e d a em t p web),
    (strip a), (strip t), (strip p). cbn [loaded].
  split; [assumption|]. split; [assumption|]. split; [assumption|].
  split; [apply strip_trimmed|]. split; [apply strip_trimmed|].
  split; [apply strip_trimmed|].
  split; [exact (store_append_same _ _ _)|].
  split; [reflexivity|]. split; [reflexivity|]. split; [reflexivity|].
  split; [|split].
  - intros ws Hws Hne. destruct Hw as [[Hf _]|(ws' & Hws' & _ & ->)].
    + rewrite Hws in Hf. apply truthy_str in Hne. congruence.
    + rewrite Hws in Hws'. injection Hws' as <-.
      exists (strip ws). split; [apply strip_trimmed|reflexivity].
  - intros Hf. destruct Hw as [[_ ->]|(ws' & Hws' & Hne & _)].
    + reflexivity.
    + rewrite Hws' in Hf. apply truthy_str in Hne. congruence.
  - intros Hlen Hsp. split.
    + change (Some (JStr (clean 100 a)) = Some (JStr (firstn 100 a))).
      unfold clean, slice_to. now rewrite (strip_no_surrounding_space a Hsp).
    + rewrite length_firstn, Hlen. reflexivity.
Qed.

End StoreClaims.

(* ------------------------------------------------------------------ *)
(** ** The statements on the sample requests *)

Import Samples.

Lemma format_time_ago_buckets_witness :
  format_time_ago (rt := Sample.rt) (Civil 2024 3 1 12 0 0 0)
    (JStr (lit "2024-03-01T11:58:30")) = inr (lit "1 minute ago").
Proof.
  apply (format_time_ago_buckets (rt := Sample.rt) (Civil 2024 3 1 12 0 0 0)
           (lit "2024-03-01T11:58:30")
           (Datetime (Civil 2024 3 1 11 58 30 0) None) (seconds 90)
           eq_refl eq_refl).
  - discriminate.
  - reflexivity.
Defined.

(** [total_seconds] on a few lengths: one microsecond is the float
    [0x1.0c6f7a0b5ed8dp-20], 90 s is [90.0], and one microsecond short
    of 30000 weeks, which no float holds, is [18144000000.0]. *)
Example total_seconds_samples :
  total_seconds 1 = FFinite false 4722366482869645 (-72) /\
  total_seconds (-1) = FFinite true 4722366482869645 (-72) /\
  total_seconds 0 = FZero false /\
  total_seconds (seconds 90) = FFinite false 6333186975989760 (-46) /\
  total_seconds 18143999999999999 = FFinite false 4756340736000000 (-18).
Proof. repeat split; vm_compute; reflexivity. Qed.

(** So a timestamp one microsecond short of 30000 weeks old is shown as
    30000 weeks old: past [2^34] seconds the float [seconds] is no
    longer the elapsed time to the microsecond. *)
Example format_time_ago_rounds_the_seconds :
  datetime_sub (Civil 2026 11 4 0 0 0 0)
               (Datetime (Civil 1451 11 19 0 0 0 1) None)
    = inr 18143999999999999 /\
  18143999999999999 / seconds 604800 = 29999 /\
  format_time_ago (rt := Sample.rt) (Civil 2026 11 4 0 0 0 0)
    (JStr (lit "1451-11-19T00:00:00.000001")) = inr (lit "30000 weeks ago").
Proof. repeat split; vm_compute; reflexivity. Qed.

Lemma post_missing_required_fields_witness :
  do_POST (rt := Sample.rt) e0 (post body_empty_author) None =
  (Responded (SendError 400 (lit "Missing required fields")), None).
Proof.
  refine (proj2 (post_missing_required_fields (rt := Sample.rt) e0
            (post body_empty_author) None
            (Sample.text "{'author': '', 'text': 'hi', 'post_id': 'p'}")
            [(lit "author", JStr []); (lit "text", JStr (lit "hi"));
             (lit "post_id", JStr (lit "p"))]
            eq_refl eq_refl eq_refl) eq_refl).
Defined.


Lemma post_null_email_witness :
  exists msg,
    do_POST (rt := Sample.rt) e0 (post body_null_email) None =
    (Responded (SendError 500 msg), None) /\
    (forall a, JStr (lit "Ann") = JStr a ->
               msg = lit "'NoneType' object has no attribute 'strip'").
Proof.
  apply (post_null_email (rt := Sample.rt) e0 (post body_null_email) None
           (Sample.text "{'author': 'Ann', 'email': null, 'text': 'hi', 'post_id': 'p'}")
           [(lit "author", JStr (lit "Ann")); (lit "email", JNull);
            (lit "text", JStr (lit "hi")); (lit "post_id", JStr (lit "p"))]
           eq_refl eq_refl eq_refl eq_refl eq_refl eq_refl eq_refl).
Defined.

Lemma post_exception_500_witness :
  do_POST (rt := Sample.rt) e0 (post body_null_email) None =
  (Responded
     (SendError 500 (lit "'NoneType' object has no attribute 'strip'")),
   None).
Proof.
  apply (proj1 (post_exception_500 (rt := Sample.rt) e0
                  (post body_null_email) None
                  (Sample.text "{'author': 'Ann', 'email': null, 'text': 'hi', 'post_id': 'p'}")
                  eq_refl eq_refl)
           (no_attribute JNull "strip") None eq_refl eq_refl eq_refl).
Defined.

(** C1 as stated fails in step 1: a body that is not UTF-8 makes
    [decode] raise before the [try] is entered; the exception is an
    [Exception] other than [JSONDecodeError], it leaves the handler, and
    no 500 response is written. *)
Lemma post_undecodable_body_not_500 :
  exists x,
    read_body (rt := Sample.rt) (post body_not_utf8) = inl x /\
    is_JSONDecodeError x = false /\ is_Exception x = true /\
    do_POST (rt := Sample.rt) e0 (post body_not_utf8) None = (Propagated x, None) /\
    fst (do_POST (rt := Sample.rt) e0 (post body_not_utf8) None)
      <> Responded (SendError 500 (exn_msg x)).
Proof.
  exists (Exn UnicodeDecodeError
            (lit "'utf-8' codec can't decode byte 0xff in position 0: invalid start byte")).
  repeat split. discriminate.
Qed.

Lemma keyed_empty : keyed [].
Proof. intros k l c H. discriminate H. Qed.




Lemma post_keeps_comments_keyed_witness :
  exists P c,
    JObj (comment_ok ++ [(lit "time_formatted", JStr (lit "just now"))])
      = JObj (c ++ [(lit "time_formatted", JStr (lit "just now"))]) /\
    dict_get (lit "post_id") c = Some (JStr P) /\
    dict_get P (loaded file_ok) = Some (comments_of P (loaded None) ++ [c]) /\
    (forall k, k <> P -> dict_get k (loaded file_ok) = dict_get k (loaded None)) /\
    keyed (loaded file_ok).
Proof.
  exact (post_keeps_comments_keyed (rt := Sample.rt) e0 (post body_ok) None
           file_ok json_headers
           (JObj (comment_ok ++ [(lit "time_formatted", JStr (lit "just now"))]))
           keyed_empty eq_refl).
Defined.

Lemma persisted_store_has_no_time_formatted_witness :
  map fst comment_ok = nine_fields /\
  dict_get (lit "time_formatted") comment_ok = None.
Proof.
  apply (proj2 (proj2 (persisted_store_has_no_time_formatted (rt := Sample.rt)))
           [POST e0 (post body_ok); GET e0 (get_request (lit "on-simplicity"))]
           (lit "on-simplicity") [comment_ok] comment_ok).
  - left. reflexivity.
  - left. reflexivity.
Defined.



Lemma post_stores_trimmed_truncated_witness :
  exists a t p c sa st sp,
    get_or "author" data_padded JNull = JStr a /\
    get_or "text" data_padded JNull = JStr t /\
    get_or "post_id" data_padded JNull = JStr p /\
    trimmed a sa /\ trimmed t st /\ trimmed p sp /\
    dict_get (firstn 100 sp)
        (loaded (Some [(lit "on-simplicity", [comment_padded])])) =
      Some (comments_of (firstn 100 sp) (loaded None) ++ [c]) /\
    dict_get (lit "author") c = Some (JStr (firstn 100 sa)) /\
    dict_get (lit "text") c = Some (JStr (firstn 5000 st)) /\
    dict_get (lit "post_id") c = Some (JStr (firstn 100 sp)) /\
    (forall ws, get_or "website" data_padded JNull = JStr ws -> ws <> [] ->
       exists sw, trimmed ws sw /\
         dict_get (lit "website") c = Some (JStr (firstn 200 sw))) /\
    (truthy (get_or "website" data_padded JNull) = false ->
       dict_get (lit "website") c = Some JNull) /\
    (List.length a = 150%nat -> no_surrounding_space a ->
       dict_get (lit "author") c = Some (JStr (firstn 100 a)) /\
       List.length (firstn 100 a) = 100%nat).
Proof.
  exact (post_stores_trimmed_truncated (rt := Sample.rt) e0
           (post body_padded) None
           (Some [(lit "on-simplicity", [comment_padded])])
           json_headers
           (JObj (comment_padded ++ [(lit "time_formatted", JStr (lit "just now"))]))
           (map Byte.to_N body_padded) data_padded
           eq_refl eq_refl eq_refl).
Defined.


(* ------------------------------------------------------------------ *)
(** ** How the file evolves over requests *)

Section Evolution.
Context {rt : Runtime}.

(** What a request does to the file: nothing, or the append of an
    accepted POST. *)
Lemma serve_cases (f : fs) (c : call) :
  (snd (serve f c) = f /\ is_created (fst (serve f c)) = false) \/
  (exists e req body d a em t p web,
      c = POST e req /\ is_api req = true /\ read_body req = inr body /\
      json_loads body = inr (JObj d) /\ valid_payload d a em t p web /\
      fst (serve f c)
        = Responded (created_response (stored_comment e d a em t p web)) /\
      snd (serve f c)
        = Some (store_append (clean 100 p)
                  (stored_comment e d a em t p web) (loaded f))).
Proof.
  destruct c as [e req|e req|]; cbn [serve].
  - left. split; [apply do_GET_keeps_file|].
    destruct (do_GET e req f) as [o f'] eqn:E. cbn [fst].
    unfold do_GET, get_body, bind, lift, ret, load_comments in E.
    destruct (is_api req); [|now injection E as <- <-].
    destruct (query_post (req_query req)) as [x|[|ch P]];
      try (now injection E as <- <-).
    destruct f; cbv beta iota in E;
      match type of E with context [add_time_formatted ?a ?b ?c] =>
        destruct (add_time_formatted a b c) end;
      now injection E as <- <-.
  - destruct (do_POST e req f) as [o f'] eqn:E. cbn [fst snd].
    apply do_POST_inv in E
      as [[-> Hno]|(body & d & a & em & t & p & web & H1 & H2 & H3 & H4 & -> & ->)].
    + left. split; [reflexivity|].
      destruct o as [[st h b| |]| |]; try reflexivity.
      exfalso. eapply Hno. reflexivity.
    + right. exists e, req, body, d, a, em, t, p, web. auto 10.
  - left. split; reflexivity.
Qed.


Lemma run_cons (f : fs) (c : call) (cs : list call) :
  run f (c :: cs) = run (snd (serve f c)) cs.
Proof. reflexivity. Qed.

(** A property kept by every request is kept by every sequence. *)
Lemma run_invariant (I : fs -> Prop) :
  (forall f c, I f -> I (snd (serve f c))) ->
  forall cs f, I f -> I (run f cs).
Proof.
  intros Hstep. induction cs as [|c cs IH]; intros f Hf.
  - exact Hf.
  - rewrite run_cons. apply IH. now apply Hstep.
Qed.

Lemma comments_of_store_append (P k : pystr) (c : comment) (s : store) :
  comments_of k (store_append P c s)
  = comments_of k s ++ (if str_eqb P k then [c] else []).
Proof.
  unfold comments_of at 1. destruct (str_eqb P k) eqn:E.
  - apply str_eqb_eq in E. subst k. now rewrite store_append_same.
  - assert (Hne : P <> k) by (intros Heq; apply str_eqb_eq in Heq; congruence).
    rewrite store_append_other by assumption.
    unfold comments_of. now rewrite app_nil_r.
Qed.


Lemma store_append_keyed (P : pystr) (c : comment) (s : store) :
  dict_get (lit "post_id") c = Some (JStr P) ->
  keyed s -> keyed (store_append P c s).
Proof.
  intros Hc Hk k l c0 Hg Hin.
  assert (E : comments_of k (store_append P c s) = l).
  { unfold comments_of. now rewrite Hg. }
  rewrite comments_of_store_append in E. subst l.
  apply in_app_or in Hin as [Hin|Hin].
  - unfold comments_of in Hin.
    destruct (dict_get k s) as [l|] eqn:G; [|destruct Hin].
    eapply Hk; eassumption.
  - destruct (str_eqb P k) eqn:Ek; [|destruct Hin].
    apply str_eqb_eq in Ek. destruct Hin as [<-|[]]. congruence.
Qed.

(** X3: in every file this server has written, starting from an absent
    file, each comment is filed under the key equal to its own
    [post_id]. *)
Theorem served_store_is_keyed (cs : list call) : keyed (loaded (run None cs)).
Proof.
  apply (run_invariant (fun f => keyed (loaded f))).
  - intros f c Hk.
    destruct (serve_cases f c)
      as [[-> _]|(e & req & body & d & a & em & t & p & web & _ & _ & _ & _ & _ & _ & ->)].
    + exact Hk.
    + cbn [loaded]. apply store_append_keyed; [reflexivity|exact Hk].
  - intros k l c H. discriminate H.
Qed.

Lemma firstn_within (n : nat) (s : pystr) : (List.length (firstn n s) <= n)%nat.
Proof. apply firstn_le_length. Qed.

Lemma stored_comment_within_limits e d a em t p web :
  valid_payload d a em t p web ->
  within_limits (stored_comment e d a em t p web).
Proof.
  intros (_ & _ & _ & _ & _ & _ & _ & Hw).
  unfold within_limits, str_within, clean, slice_to.
  repeat split;
    try (eexists; split; [reflexivity|apply firstn_within]).
  destruct Hw as [[_ ->]|(ws & _ & _ & ->)].
  - left. reflexivity.
  - right. eexists. split; [reflexivity|apply firstn_within].
Qed.

(** X9: in every file this server has written, starting from an absent
    file, each comment has an [id] of at most 8 characters, [author],
    [email] and [post_id] of at most 100, [text] of at most 5000, a
    [website] that is null or a string of at most 200, and
    [approved] true. *)
Theorem served_comments_within_limits (cs : list call) (k : pystr)
    (l : list comment) (c : comment) :
  In (k, l) (loaded (run None cs)) -> In c l -> within_limits c.
Proof.
  revert k l c.
  apply (run_invariant
           (fun f => forall k l c, In (k, l) (loaded f) -> In c l ->
                                   within_limits c)).
  - intros f call Hf k l c Hin Hc.
    destruct (serve_cases f call)
      as [[E _]|(e & req & body & d & a & em & t & p & web & _ & _ & _ & _ & Hv & _ & E)];
      rewrite E in Hin.
    + eapply Hf; eassumption.
    + cbn [loaded] in Hin.
      apply In_store_append in Hin as [Hin|[->|[-> ->]]].
      * eapply Hf; eassumption.
      * destruct Hc.
      * apply in_app_or in Hc as [Hc|[<-|[]]].
        -- unfold comments_of in Hc.
           destruct (dict_get (clean 100 p) (loaded f)) as [l|] eqn:G;
             [|destruct Hc].
           apply dict_get_In in G. eapply Hf; eassumption.
        -- now apply stored_comment_within_limits.
  - intros k l c [].
Qed.








End Evolution.

(* ------------------------------------------------------------------ *)
(** ** What [do_GET] answers *)

Section GetAnswers.
Context {rt : Runtime}.

Lemma annotated_same_but_time (c c' : comment) :
  annotated c c' -> same_but_time c c'.
Proof.
  intros [tf ->]. split.
  - intros k Hk. apply dict_get_set_other. congruence.
  - exists tf. apply dict_get_set_same.
Qed.

Lemma add_time_formatted_inv (clock : nat -> civil) (cs : list comment) :
  forall i out, add_time_formatted clock i cs = inr out -> Forall2 annotated cs out.
Proof.
  induction cs as [|c cs IH]; intros i out H; cbn [add_time_formatted] in H.
  - injection H as <-. constructor.
  - destruct (getitem c "timestamp") as [x|ts]; [discriminate|].
    cbn [rbind] in H.
    destruct (format_time_ago (clock i) ts) as [x|tf]; [discriminate|].
    cbn [rbind] in H.
    destruct (add_time_formatted clock (S i) cs) as [x|rest] eqn:E;
      [discriminate|].
    cbn [rbind] in H. injection H as <-.
    constructor; [now exists tf|]. eapply IH. eassumption.
Qed.

(** The ways a GET ends. *)
Lemma do_GET_cases (e : env) (req : request) (f : fs) :
  fst (do_GET e req f) = Delegated \/
  (exists x, fst (do_GET e req f) = Propagated x) \/
  (exists ch P out,
      is_api req = true /\ query_post (req_query req) = inr (ch :: P) /\
      add_time_formatted (env_clock e) 0 (comments_of (ch :: P) (loaded f))
        = inr out /\
      fst (do_GET e req f)
        = Responded (SendJson 200 json_headers (JList (map JObj out)))).
Proof.
  unfold do_GET, get_body, bind, lift, ret, load_comments.
  destruct (is_api req); [|now left].
  destruct (query_post (req_query req)) as [x|[|ch P]];
    [right; left; eexists; reflexivity|now left|].
  destruct f as [s|]; cbv beta iota;
    match goal with |- context [add_time_formatted ?a ?b ?c] =>
      destruct (add_time_formatted a b c) as [x|out] eqn:E end;
    cbn [fst];
    try (right; left; eexists; reflexivity);
    right; right; exists ch, P, out; repeat split; exact E.
Qed.

(** X5: whenever a GET answers with JSON, the status is 200, the
    headers are the two CORS/content-type headers and the body is an
    array with one entry per stored comment of the post, in stored
    order; each entry has the stored value at every key other than
    [time_formatted], and a string at [time_formatted]. *)
Theorem get_returns_stored_fields (e : env) (req : request) (f : fs)
    (st : Z) (h : list (pystr * pystr)) (b : json) :
  fst (do_GET e req f) = Responded (SendJson st h b) ->
  exists P out,
    query_post (req_query req) = inr P /\ P <> [] /\
    st = 200 /\ h = json_headers /\ b = JList (map JObj out) /\
    Forall2 same_but_time (comments_of P (loaded f)) out.
Proof.
  intros H.
  destruct (do_GET_cases e req f)
    as [E|[[x E]|(ch & P & out & _ & Hq & Ha & E)]];
    rewrite E in H; try discriminate.
  injection H as <- <- <-.
  exists (ch :: P), out. repeat split; try assumption; try discriminate.
  apply add_time_formatted_inv in Ha.
  revert Ha. apply Forall2_impl. exact annotated_same_but_time.
Qed.

(** X6: a GET leaves the file as it is, so a second GET sees the same
    comments: when two GETs of the same request both answer with JSON,
    at any two times, their arrays have the same length and, entry by
    entry, the same value at every key other than [time_formatted]. *)
Theorem get_twice_differs_only_in_time (e1 e2 : env) (req : request) (f : fs)
    (out1 out2 : list comment) :
  fst (do_GET e1 req f)
    = Responded (SendJson 200 json_headers (JList (map JObj out1))) ->
  fst (do_GET e2 req (snd (do_GET e1 req f)))
    = Responded (SendJson 200 json_headers (JList (map JObj out2))) ->
  Forall2 (fun c1 c2 =>
             forall k, k <> lit "time_formatted" ->
                       dict_get k c1 = dict_get k c2) out1 out2.
Proof.
  rewrite do_GET_keeps_file. intros H1 H2.
  assert (Inj : forall l l' : list comment, map JObj l = map JObj l' -> l = l').
  { induction l as [|x l IH]; intros [|y l'] E; try discriminate; [reflexivity|].
    cbn in E. injection E as -> E. f_equal. now apply IH. }
  destruct (do_GET_cases e1 req f)
    as [E|[[x E]|(ch1 & P1 & o1 & _ & Hq1 & F1 & E)]];
    rewrite E in H1; try discriminate.
  destruct (do_GET_cases e2 req f)
    as [E2|[[x E2]|(ch2 & P2 & o2 & _ & Hq2 & F2 & E2)]];
    rewrite E2 in H2; try discriminate.
  injection H1 as H1. injection H2 as H2.
  apply Inj in H1. apply Inj in H2. subst o1 o2.
  rewrite Hq1 in Hq2. injection Hq2 as <- <-.
  apply add_time_formatted_inv in F1. apply add_time_formatted_inv in F2.
  clear E E2 Hq1 Inj. revert out2 F2.
  induction F1 as [|c c1 l l1 Hc _ IH]; intros out2 F2;
    inversion F2; subst; constructor.
  - intros k Hk. apply annotated_same_but_time in Hc as [Hc _].
    match goal with H : annotated c _ |- _ =>
      apply annotated_same_but_time in H as [Hc2 _] end.
    now rewrite Hc, Hc2.
  - now apply IH.
Qed.

Lemma add_time_formatted_missing (clock : nat -> civil) (cs : list comment) :
  forall i,
  (exists c, In c cs /\ dict_get (lit "timestamp") c = None) ->
  exists x, add_time_formatted clock i cs = inl x.
Proof.
  induction cs as [|c cs IH]; intros i (c0 & Hin & Hc0); [destruct Hin|].
  cbn [add_time_formatted].
  destruct (getitem c "timestamp") as [x|ts] eqn:G; cbn [rbind]; [eauto|].
  destruct (format_time_ago (clock i) ts) as [x|tf]; cbn [rbind]; [eauto|].
  destruct Hin as [->|Hin].
  - unfold getitem in G. rewrite Hc0 in G. discriminate.
  - destruct (IH (S i)) as [x ->]; [eauto|]. cbn [rbind]. eauto.
Qed.

(** X7: [do_GET] has no [try]: when some comment of the requested post
    has no [timestamp], the GET writes no response at all (not even a
    partial array); an exception leaves the handler, and the file is
    untouched. *)
Theorem get_raises_on_comment_without_timestamp (e : env) (req : request)
    (f : fs) (ch : N) (P : pystr) (c : comment) :
  is_api req = true -> query_post (req_query req) = inr (ch :: P) ->
  In c (comments_of (ch :: P) (loaded f)) ->
  dict_get (lit "timestamp") c = None ->
  exists x, do_GET e req f = (Propagated x, f).
Proof.
  intros Hapi Hq Hin Hc.
  destruct (add_time_formatted_missing (env_clock e)
              (comments_of (ch :: P) (loaded f)) 0) as [x Hx]; [eauto|].
  exists x. unfold do_GET, get_body, bind, lift, ret, load_comments.
  rewrite Hapi, Hq. unfold comments_of, loaded in Hx.
  destruct f; cbv beta iota; rewrite Hx; reflexivity.
Qed.

End GetAnswers.

(* ------------------------------------------------------------------ *)
(** ** Edges of [format_time_ago] *)

Section TimeEdges.
Context {rt : Runtime}.

(** X8: [format_time_ago] raises exactly when the timestamp is not a
    string, when [fromisoformat] rejects it, or when it carries a UTC
    offset (the subtraction from the naive [now()] is then a
    [TypeError]); in every other case it returns a phrase. *)
Theorem format_time_ago_raises (now : civil) (v : json) (x : exn) :
  format_time_ago now v = inl x <->
  ((forall s, v <> JStr s) /\
   x = Exn TypeError (lit "fromisoformat: argument must be str")) \/
  (exists s, v = JStr s /\ fromisoformat s = inl x) \/
  (exists s dt off,
      v = JStr s /\ fromisoformat s = inr dt /\ tzinfo dt = Some off /\
      x = Exn TypeError
            (lit "can't subtract offset-naive and offset-aware datetimes")).
Proof.
  split.
  - intros H. destruct v as [| | | |s| |];
      try (left; split; [discriminate|now injection H as <-]).
    right. destruct (fromisoformat s) as [y|dt] eqn:Hp.
    + left. exists s. split; [reflexivity|].
      unfold format_time_ago in H. rewrite Hp in H. cbn [rbind] in H.
      congruence.
    + destruct (tzinfo dt) as [off|] eqn:Htz.
      * right. exists s, dt, off. repeat split; try assumption.
        unfold format_time_ago in H. rewrite Hp in H. cbn [rbind] in H.
        unfold datetime_sub in H. rewrite Htz in H. cbn [rbind] in H.
        congruence.
      * destruct (format_time_ago_total now s dt Hp Htz) as [r Hr].
        rewrite Hr in H. discriminate.
  - unfold format_time_ago.
    intros [[Hv ->]|[(s & -> & Hp)|(s & dt & off & -> & Hp & Htz & ->)]].
    + destruct v; try reflexivity. now destruct (Hv s).
    + now rewrite Hp.
    + rewrite Hp. cbn [rbind]. unfold datetime_sub. now rewrite Htz.
Qed.

End TimeEdges.

(* ------------------------------------------------------------------ *)
(** ** Trimming *)



Lemma lstrip_starts_clean (s : pystr) : starts_clean (lstrip s).
Proof.
  induction s as [|c s IH]; [exact I|].
  simpl. destruct (is_space c) eqn:E; [exact IH|exact E].
Qed.

Lemma lstrip_suffix (s : pystr) : exists t, s = t ++ lstrip s.
Proof.
  induction s as [|c s [t IH]]; [now exists []|].
  simpl. destruct (is_space c).
  - exists (c :: t). simpl. now rewrite <- IH.
  - now exists [].
Qed.

Lemma rstrip_prefix (s : pystr) : exists t, s = rstrip s ++ t.
Proof.
  unfold rstrip. destruct (lstrip_suffix (rev s)) as [t E].
  exists (rev t). rewrite <- rev_app_distr, <- E. now rewrite rev_involutive.
Qed.

Lemma starts_clean_prefix (s t : pystr) :
  starts_clean (s ++ t) -> starts_clean s.
Proof. destruct s; [intros _; exact I|exact (fun H => H)]. Qed.

Lemma strip_starts_clean (s : pystr) : starts_clean (strip s).
Proof.
  unfold strip. destruct (rstrip_prefix (lstrip s)) as [t E].
  apply (starts_clean_prefix _ t). rewrite <- E. apply lstrip_starts_clean.
Qed.

Lemma clean_starts_clean (n : nat) (s : pystr) : starts_clean (clean n s).
Proof.
  unfold clean, slice_to.
  apply (starts_clean_prefix _ (skipn n (strip s))).
  rewrite firstn_skipn. apply strip_starts_clean.
Qed.

(* ------------------------------------------------------------------ *)
(** ** Edges of [do_POST] *)

Section PostEdges.
Context {rt : Runtime}.


(** X12: in a POST answered with 201 the stored [author], [email],
    [text] and [post_id] never start with whitespace; but as the cut
    follows the trim, a stored value can end with whitespace: when the
    trimmed author has a whitespace character in 100th place and more
    after it, the stored author ends with that character. *)
Theorem post_stored_strings_start_clean (e : env) (req : request) (f f' : fs)
    (h : list (pystr * pystr)) (b : json) (body : pystr) (d : dict json) :
  do_POST e req f = (Responded (SendJson 201 h b), f') ->
  read_body req = inr body -> json_loads body = inr (JObj d) ->
  exists cm a sa sem st sp,
    b = JObj (cm ++ [(lit "time_formatted", JStr (lit "just now"))]) /\
    get_or "author" d JNull = JStr a /\
    dict_get (lit "author") cm = Some (JStr sa) /\ starts_clean sa /\
    dict_get (lit "email") cm = Some (JStr sem) /\ starts_clean sem /\
    dict_get (lit "text") cm = Some (JStr st) /\ starts_clean st /\
    dict_get (lit "post_id") cm = Some (JStr sp) /\ starts_clean sp /\
    (forall pre c rest,
        strip a = pre ++ c :: rest -> List.length pre = 99%nat ->
        sa = pre ++ [c]).
Proof.
  intros E Hb Hl.
  apply do_POST_inv in E
    as [[_ Hno]|(body' & d' & a & em & t & p & web & _ & Hb' & Hl' & Hv & Ho & _)].
  { exfalso. eapply Hno. reflexivity. }
  rewrite Hb in Hb'. injection Hb' as <-.
  rewrite Hl in Hl'. injection Hl' as <-.
  injection Ho as -> ->. destruct Hv as (Ha & _).
  exists (stored_comment e d a em t p web), a,
    (clean 100 a), (clean 100 em), (clean 5000 t), (clean 100 p).
  repeat split; try apply clean_starts_clean; try assumption.
  intros pre c rest Hs Hlen. unfold clean, slice_to. rewrite Hs.
  change (pre ++ c :: rest) with (pre ++ [c] ++ rest).
  rewrite app_assoc.
  assert (L : 100%nat = (List.length (pre ++ [c]) + 0)%nat)
    by (rewrite length_app, Hlen; reflexivity).
  rewrite L, firstn_app_2, firstn_O. apply app_nil_r.
Qed.

(** X13: once line 96 has passed, a field that is not a string makes
    [strip] raise and the POST is answered with 500 carrying the
    [AttributeError] message that names the value's type; nothing is
    stored.  This holds for a non-string [author], for a present
    non-string [email] after a string [author], and for a truthy
    non-string [website] after those. *)
Theorem post_non_string_field_is_500 (e : env) (req : request) (f : fs)
    (body : pystr) (d : dict json) :
  is_api req = true -> read_body req = inr body ->
  json_loads body = inr (JObj d) ->
  truthy (get_or "author" d JNull) = true ->
  truthy (get_or "text" d JNull) = true ->
  truthy (get_or "post_id" d JNull) = true ->
  let bad v := (Responded (SendError 500 (exn_msg (no_attribute v "strip"))), f) in
  ((forall s, get_or "author" d JNull <> JStr s) ->
   do_POST e req f = bad (get_or "author" d JNull)) /\
  (forall a v,
      get_or "author" d JNull = JStr a ->
      dict_get (lit "email") d = Some v -> (forall s, v <> JStr s) ->
      do_POST e req f = bad v) /\
  (forall a em v,
      get_or "author" d JNull = JStr a ->
      get_or "email" d (JStr []) = JStr em ->
      dict_get (lit "website") d = Some v -> truthy v = true ->
      (forall s, v <> JStr s) ->
      do_POST e req f = bad v).
Proof.
  intros Hapi Hb Hl Ta Tt Tp bad. unfold bad.
  assert (NS : forall v n, (forall s, v <> JStr s) ->
                           stripped v n = inl (no_attribute v "strip")).
  { intros v n Hv. destruct v; try reflexivity. now destruct (Hv s). }
  unfold do_POST. rewrite Hapi, Hb. unfold post_try.
  split; [|split].
  - intros Ha.
    unfold bind, lift, ret. rewrite Hl. cbn [py_get rbind].
    rewrite Ta, Tt, Tp. cbn [negb].
    rewrite (get_or_truthy _ _ _ Ta), (NS _ _ Ha). reflexivity.
  - intros a v Ha Hem Hv.
    assert (Em : get_or "email" d (JStr []) = v)
      by (unfold get_or; now rewrite Hem).
    unfold bind, lift, ret. rewrite Hl. cbn [py_get rbind].
    rewrite Ta, Tt, Tp. cbn [negb].
    rewrite (get_or_truthy _ _ _ Ta), Ha.
    cbn [stripped py_strip rbind]. rewrite Em.
    fold (stripped v 100). rewrite (NS _ _ Hv). reflexivity.
  - intros a em v Ha Hem Hw Tw Hv.
    assert (W : forall y, get_or "website" d y = v)
      by (intros y; unfold get_or; now rewrite Hw).
    unfold bind, lift, ret. rewrite Hl. cbn [py_get rbind].
    rewrite Ta, Tt, Tp. cbn [negb].
    rewrite (get_or_truthy _ _ _ Ta), Ha, Hem.
    cbn [stripped py_strip rbind]. rewrite !W, Tw.
    fold (stripped v 200). rewrite (NS _ _ Hv). reflexivity.
Qed.

(** X14: the body is read before the [try]: on [/api/comments], a
    [Content-Length] that [int] rejects, a [Content-Length] below -1
    (a [ValueError] down to [-2^63]), one that is no 64-bit size (an
    [OverflowError]), a read buffer that cannot be allocated, and a
    body that is not UTF-8 each make an exception leave [do_POST]; no
    response is written and the file is untouched. *)
Theorem post_body_errors_leave_handler (e : env) (req : request) (f : fs) :
  is_api req = true ->
  (forall s x,
      req_content_length req = Some s -> int_of_str s = inl x ->
      do_POST e req f = (Propagated x, f)) /\
  (forall s n,
      req_content_length req = Some s -> int_of_str s = inr n -> n < -1 ->
      exists x, do_POST e req f = (Propagated x, f)) /\
  (forall s n,
      req_content_length req = Some s -> int_of_str s = inr n ->
      - 2 ^ 63 <= n < -1 ->
      do_POST e req f =
        (Propagated
           (Exn ValueError (lit "read length must be non-negative or -1")), f)) /\
  (forall s n,
      req_content_length req = Some s -> int_of_str s = inr n ->
      n < - 2 ^ 63 \/ 2 ^ 63 <= n ->
      do_POST e req f =
        (Propagated
           (Exn OverflowError
                (lit "cannot fit 'int' into an index-sized integer")), f)) /\
  (forall s n x,
      req_content_length req = Some s -> int_of_str s = inr n ->
      0 < n < 2 ^ 63 -> bytes_alloc n = inl x ->
      do_POST e req f = (Propagated x, f)) /\
  (forall x, read_body req = inl x -> do_POST e req f = (Propagated x, f)).
Proof.
  intros Hapi.
  assert (V : forall s n,
    req_content_length req = Some s -> int_of_str s = inr n ->
    - 2 ^ 63 <= n < -1 ->
    do_POST e req f =
      (Propagated
         (Exn ValueError (lit "read length must be non-negative or -1")), f)).
  { intros s n Hc Hi Hn. unfold do_POST, read_body, rfile_read.
    rewrite Hapi, Hc, Hi. cbn [rbind].
    destruct (Z.ltb_spec n (- 2 ^ 63)); [lia|].
    destruct (Z.leb_spec (2 ^ 63) n); [lia|]. cbn [orb].
    destruct (Z.ltb_spec n (-1)); [|lia]. reflexivity. }
  assert (O : forall s n,
    req_content_length req = Some s -> int_of_str s = inr n ->
    n < - 2 ^ 63 \/ 2 ^ 63 <= n ->
    do_POST e req f =
      (Propagated
         (Exn OverflowError
              (lit "cannot fit 'int' into an index-sized integer")), f)).
  { intros s n Hc Hi Hn. unfold do_POST, read_body, rfile_read.
    rewrite Hapi, Hc, Hi. cbn [rbind].
    destruct (Z.ltb_spec n (- 2 ^ 63)); [reflexivity|].
    destruct (Z.leb_spec (2 ^ 63) n); [reflexivity|lia]. }
  split; [|split; [|split; [|split; [|split]]]].
  - intros s x Hc Hi. unfold do_POST, read_body. now rewrite Hapi, Hc, Hi.
  - intros s n Hc Hi Hn.
    destruct (Z.lt_ge_cases n (- 2 ^ 63)) as [L|G]; eexists.
    + apply (O s n Hc Hi). now left.
    + apply (V s n Hc Hi). lia.
  - exact V.
  - exact O.
  - intros s n x Hc Hi Hn Ha. unfold do_POST, read_body, rfile_read.
    rewrite Hapi, Hc, Hi. cbn [rbind].
    destruct (Z.ltb_spec n (- 2 ^ 63)); [lia|].
    destruct (Z.leb_spec (2 ^ 63) n); [lia|]. cbn [orb].
    destruct (Z.ltb_spec n (-1)); [lia|].
    destruct (Z.eqb_spec n (-1)); [lia|].
    destruct (Z.eqb_spec n 0); [lia|].
    rewrite Ha. reflexivity.
  - intros x Hx. unfold do_POST. now rewrite Hapi, Hx.
Qed.

(** Reading as many bytes as were announced, once the buffer for them
    is allocated. *)
Lemma rfile_read_sent (n : Z) (sent extra : list byte) :
  Z.of_nat (List.length sent) = n -> n < 2 ^ 63 ->
  (0 < n -> bytes_alloc n = inr tt) ->
  rfile_read (sent ++ extra) n = inr sent.
Proof.
  intros Hn Hlt Ha. unfold rfile_read.
  destruct (Z.ltb_spec n (- 2 ^ 63)); [lia|].
  destruct (Z.leb_spec (2 ^ 63) n); [lia|]. cbn [orb].
  destruct (Z.ltb_spec n (-1)); [lia|].
  destruct (Z.eqb_spec n (-1)); [lia|].
  destruct (Z.eqb_spec n 0) as [Z0|NZ].
  - destruct sent; [reflexivity|]. cbn [List.length] in Hn. lia.
  - rewrite Ha by lia. cbn [rbind].
    rewrite <- Hn, Nat2Z.id, firstn_app, Nat.sub_diag, firstn_all.
    cbn [firstn]. now rewrite app_nil_r.
Qed.

(** X15: when the client sends at least the [Content-Length] bytes it
    announced, their number is below [2^63] and the buffer for them is
    allocated, [do_POST] decodes exactly those bytes: what follows them
    never changes the answer; without a [Content-Length] header the
    body is taken as empty whatever was sent. *)
Theorem post_reads_content_length_bytes (e : env) (req : request) (f : fs) :
  (forall s n sent extra,
      req_content_length req = Some s -> int_of_str s = inr n ->
      req_rfile req = sent ++ extra -> Z.of_nat (List.length sent) = n ->
      n < 2 ^ 63 -> (0 < n -> bytes_alloc n = inr tt) ->
      read_body req = decode_utf8 sent /\
      do_POST e req f
        = do_POST e (Request (req_path req) (req_query req) (Some s) sent) f) /\
  (req_content_length req = None -> read_body req = decode_utf8 []).
Proof.
  split.
  - intros s n sent extra Hc Hi Hr Hn Hlt Ha.
    assert (R1 : read_body req = decode_utf8 sent).
    { unfold read_body. rewrite Hc, Hi, Hr. cbn [rbind].
      now rewrite (rfile_read_sent n sent extra Hn Hlt Ha). }
    assert (R2 : read_body (Request (req_path req) (req_query req) (Some s) sent)
                 = decode_utf8 sent).
    { unfold read_body. cbn [req_content_length req_rfile].
      rewrite Hi. cbn [rbind].
      rewrite <- (app_nil_r sent) at 1.
      now rewrite (rfile_read_sent n sent [] Hn Hlt Ha). }
    split; [exact R1|]. unfold do_POST. rewrite R1, R2. reflexivity.
  - intros Hc. unfold read_body. rewrite Hc. reflexivity.
Qed.

End PostEdges.

(* ------------------------------------------------------------------ *)
(** ** The further statements on the sample requests *)

Import MoreSamples.



Lemma served_comments_within_limits_witness : within_limits comment_ok.
Proof.
  apply (served_comments_within_limits (rt := Sample.rt)
           [POST e0 (post body_ok)] (lit "on-simplicity") [comment_ok] comment_ok).
  - left. reflexivity.
  - left. reflexivity.
Defined.


Lemma get_returns_stored_fields_witness :
  exists P out,
    query_post (req_query (get_request (lit "on-simplicity"))) = inr P /\
    P <> [] /\ 200 = 200 /\ json_headers = json_headers /\
    JList [JObj comment_ok_shown] = JList (map JObj out) /\
    Forall2 same_but_time (comments_of P (loaded file_ok)) out.
Proof.
  apply (get_returns_stored_fields (rt := Sample.rt) e0
           (get_request (lit "on-simplicity")) file_ok 200 json_headers
           (JList [JObj comment_ok_shown])).
  reflexivity.
Defined.

Lemma get_twice_differs_only_in_time_witness :
  Forall2 (fun c1 c2 =>
             forall k, k <> lit "time_formatted" ->
                       dict_get k c1 = dict_get k c2)
          [comment_ok_shown] [comment_ok_shown].
Proof.
  apply (get_twice_differs_only_in_time (rt := Sample.rt) e0 e0
           (get_request (lit "on-simplicity")) file_ok
           [comment_ok_shown] [comment_ok_shown]).
  - reflexivity.
  - reflexivity.
Defined.

Lemma get_raises_on_comment_without_timestamp_witness :
  exists x,
    do_GET (rt := Sample.rt) e0 (get_request (lit "p")) file_bare
      = (Propagated x, file_bare).
Proof.
  apply (get_raises_on_comment_without_timestamp (rt := Sample.rt) e0
           (get_request (lit "p")) file_bare 112%N [] comment_bare).
  - reflexivity.
  - reflexivity.
  - left. reflexivity.
  - reflexivity.
Defined.


Lemma post_stored_strings_start_clean_witness :
  exists cm a sa sem st sp,
    JObj (comment_ok ++ [(lit "time_formatted", JStr (lit "just now"))])
      = JObj (cm ++ [(lit "time_formatted", JStr (lit "just now"))]) /\
    get_or "author" data_ok JNull = JStr a /\
    dict_get (lit "author") cm = Some (JStr sa) /\ starts_clean sa /\
    dict_get (lit "email") cm = Some (JStr sem) /\ starts_clean sem /\
    dict_get (lit "text") cm = Some (JStr st) /\ starts_clean st /\
    dict_get (lit "post_id") cm = Some (JStr sp) /\ starts_clean sp /\
    (forall pre c rest,
        strip a = pre ++ c :: rest -> List.length pre = 99%nat ->
        sa = pre ++ [c]).
Proof.
  exact (post_stored_strings_start_clean (rt := Sample.rt) e0 (post body_ok)
           None file_ok json_headers
           (JObj (comment_ok ++ [(lit "time_formatted", JStr (lit "just now"))]))
           (map Byte.to_N body_ok) data_ok eq_refl eq_refl eq_refl).
Defined.

Lemma post_non_string_field_is_500_witness :
  do_POST (rt := Sample.rt) e0 (post body_number_author) None
  = (Responded (SendError 500 (lit "'int' object has no attribute 'strip'")),
     None).
Proof.
  apply (proj1 (post_non_string_field_is_500 (rt := Sample.rt) e0
                  (post body_number_author) None
                  (map Byte.to_N body_number_author) data_number_author
                  eq_refl eq_refl eq_refl eq_refl eq_refl eq_refl)).
  intros s. discriminate.
Defined.

Lemma post_body_errors_leave_handler_witness :
  do_POST (rt := Sample.rt) e0 post_bad_length None
  = (Propagated
       (Exn ValueError (lit "invalid literal for int() with base 10: 'abc'")),
     None).
Proof.
  apply (proj1 (post_body_errors_leave_handler (rt := Sample.rt) e0
                  post_bad_length None eq_refl)
           (lit "abc")
           (Exn ValueError (lit "invalid literal for int() with base 10: 'abc'"))
           eq_refl eq_refl).
Defined.

Lemma post_reads_content_length_bytes_witness :
  read_body (rt := Sample.rt) post_with_trailer = inr (lit "not-json") /\
  do_POST (rt := Sample.rt) e0 post_with_trailer None
  = do_POST (rt := Sample.rt) e0 (post body_not_json) None.
Proof.
  apply (proj1 (post_reads_content_length_bytes (rt := Sample.rt) e0
                  post_with_trailer None)
           (lit "8") 8 body_not_json (Sample.bytes "{'author': 'Ann'}")
           eq_refl eq_refl eq_refl eq_refl eq_refl (fun _ => eq_refl)).
Defined.
